(** * The grading endpoint

    A shallow embedding of the request handler
    [src/app/api/teacher/assignments/[id]/submissions/[submissionId]/grade/route.ts]
    (function [POST]) and the properties of its observable contract.

    The handler is sequential code with early returns, one outer
    [try]/[catch], and calls to external collaborators (cookie store, token
    verification, body parser, document store).  It is embedded as a
    computation in a state-and-exception monad over the document store; the
    outcome of each collaborator call that the handler cannot decide itself
    (a token that verifies or not, a storage call that raises) is read from
    an explicit environment. *)

From Stdlib Require Import Ascii String ZArith QArith.
From stdpp Require Import gmap strings list.
Local Open Scope string_scope.

(** ** JavaScript values *)

(** What [JSON.parse] can produce.  Numbers are kept as rationals (the
    handler only tests them against zero and stores them); object members
    are kept in source order, and a repeated key is resolved by [member]
    (the last one wins). *)
#[local] Unset Elimination Schemes.
Inductive jsval : Type :=
| JNull
| JBool (b : bool)
| JNum (q : Q)
| JStr (s : string)
| JArr (items : list jsval)
| JObj (members : list (string * jsval)).
#[local] Set Elimination Schemes.

(** A variable holding a JavaScript value; [None] is [undefined]. *)
Abbreviation jsvar := (option jsval).

(** [v === undefined] *)
Definition is_undefined (v : jsvar) : bool :=
  match v with None => true | Some _ => false end.

(** JavaScript truthiness ([!v] is [negb (truthy v)]). *)
Definition truthy (v : jsvar) : bool :=
  match v with
  | None => false
  | Some JNull => false
  | Some (JBool b) => b
  | Some (JNum q) => negb (Qeq_bool q 0)
  | Some (JStr s) => negb (String.eqb s "")
  | Some (JArr _) => true
  | Some (JObj _) => true
  end.

(** Truthiness of an optional string ([cookieStore.get(..)?.value]). *)
Definition truthy_string (v : option string) : bool :=
  match v with
  | None => false
  | Some s => negb (String.eqb s "")
  end.

(** Own property [k] of a parsed object. *)
Fixpoint member (k : string) (ms : list (string * jsval)) : jsvar :=
  match ms with
  | [] => None
  | (k', v) :: rest =>
      match member k rest with
      | Some w => Some w
      | None => if String.eqb k' k then Some v else None
      end
  end.

(** A thrown value: the error's name and its message. *)
Inductive exn : Type := Thrown (name detail : string).

(** [const { grade, feedback } = body]: destructuring [null] throws a
    [TypeError]; a primitive or an array has neither property. *)
Definition destructure (body : jsval) : exn + (jsvar * jsvar) :=
  match body with
  | JNull => inl (Thrown "TypeError" "Cannot destructure property 'grade' of 'body' as it is null.")
  | JObj ms => inr (member "grade" ms, member "feedback" ms)
  | _ => inr (None, None)
  end.

(** ** Documents *)

Module Submission.
Record t : Type := Make {
  _id : string;
  studentId : string;
  grade : jsvar;
  feedback : jsvar;
  status : string;
  gradedAt : option Z
}.
End Submission.

Module Assignment.
(** The stored fields of an assignment.  Every stored assignment is taken
    to carry its [teacherId], as the owner check at line 90 expects. *)
Record t : Type := Make {
  teacherId : string;
  title : string;
  submissions : list Submission.t
}.
(** A loaded document: the fields together with the [_id] it is stored under. *)
Record doc : Type := Doc {
  _id : string;
  fields : t
}.
End Assignment.

Module Teacher.
Record t : Type := Make {
  firstName : string;
  lastName : string
}.
End Teacher.

Module Notification.
Record t : Type := Make {
  recipientId : string;
  recipientModel : string;
  senderId : string;
  senderModel : string;
  type : string;
  message : string;
  relatedDocId : string;
  read : bool
}.
End Notification.

(** [interface JwtPayload] *)
Record JwtPayload : Type := {
  userId : string;
  role : string
}.

(** ** The request and the response *)

Record NextRequest : Type := {
  cookies : gmap string string;      (* the cookie store of the request *)
  json : exn + jsval         (* what [request.json()] resolves to, or its rejection *)
}.

Record Params : Type := {
  params_id : string;
  params_submissionId : string
}.

Inductive ResponseBody : Type :=
| Failure (error : string)                                  (* { success: false, error } *)
| Success (message : string) (submission : Submission.t).  (* { success: true, message, submission } *)

Record NextResponse : Type := {
  body : ResponseBody;
  status : Z
}.

Definition success (r : NextResponse) : bool :=
  match body r with Failure _ => false | Success _ _ => true end.

(** [NextResponse.json(body, { status })] *)
Definition NextResponse_json (b : ResponseBody) (code : Z) : NextResponse :=
  {| body := b; status := code |}.

(** ** The document store and the calls made to collaborators *)

Record Store : Type := {
  assignments : gmap string Assignment.t;
  teachers : gmap string Teacher.t;
  notifications : list Notification.t
}.

Inductive Call : Type :=
| CookiesGet (name : string)
| Verify (token : string)
| RequestJson
| ConnectToDatabase
| AssignmentFindById (id : string)
| AssignmentSave (id : string)
| TeacherFindById (id : string)
| NotificationCreate (n : Notification.t).

(** The storage calls, each of which may raise. *)
Inductive Op : Type :=
| OpConnect | OpFindAssignment | OpSave | OpFindTeacher | OpCreateNotification.

(** What the handler cannot decide: the verdict of [verify(token,
    JWT_SECRET)], the clock, and whether a storage call raises. *)
Record Env : Type := {
  verify : string → exn + JwtPayload;
  now : Z;
  fault : Op → option exn
}.

Record State : Type := {
  db : Store;
  calls : list Call       (* collaborator calls made so far, oldest first *)
}.

(** ** The monad: state, and an exception or a value *)

Definition M (A : Type) : Type := State → (exn + A) * State.

#[global] Instance M_ret : MRet M := λ A x s, (inr x, s).

#[global] Instance M_bind : MBind M := λ A B f m s,
  match m s with
  | (inl e, s') => (inl e, s')
  | (inr a, s') => f a s'
  end.

(** [throw e] *)
Definition throw {A : Type} (e : exn) : M A := λ s, (inl e, s).

Definition lift {A : Type} (r : exn + A) : M A :=
  match r with inl e => throw e | inr a => mret a end.

(** Record that a collaborator is called. *)
Definition note (c : Call) : M unit :=
  λ s, (inr tt, {| db := db s; calls := calls s ++ [c] |}).

(** A storage call: it is recorded, then it either raises (the store is
    left as it was) or runs on the store. *)
Definition storage {A : Type} (env : Env) (op : Op) (c : Call)
    (run : Store → A * Store) : M A :=
  _ ← note c;
  match fault env op with
  | Some e => throw e
  | None => λ s, let '(a, st) := run (db s) in (inr a, {| db := st; calls := calls s |})
  end.

(** ** Collaborators *)

(** [cookies().get(name)?.value] *)
Definition cookies_get (request : NextRequest) (name : string) : M (option string) :=
  _ ← note (CookiesGet name);
  mret (cookies request !! name).

(** [verify(token, process.env.JWT_SECRET!)] under the inner [try]: the
    exception is handed to the inner [catch] as a value. *)
Definition jwt_verify (env : Env) (token : string) : M (exn + JwtPayload) :=
  _ ← note (Verify token);
  mret (verify env token).

(** [await request.json()] *)
Definition request_json (request : NextRequest) : M jsval :=
  _ ← note RequestJson;
  lift (json request).

(** [await connectToDatabase()] *)
Definition connectToDatabase (env : Env) : M unit :=
  storage env OpConnect ConnectToDatabase (λ st, (tt, st)).

(** [await Assignment.findById(id)] *)
Definition Assignment_findById (env : Env) (id : string) : M (option Assignment.doc) :=
  storage env OpFindAssignment (AssignmentFindById id)
    (λ st, (Assignment.Doc id <$> assignments st !! id, st)).

(** The store after a completed [assignment.save()]: the whole aggregate
    replaces the one stored under its [_id]. *)
Definition saved (a : Assignment.doc) (st : Store) : Store :=
  {| assignments := <[Assignment._id a := Assignment.fields a]> (assignments st);
     teachers := teachers st;
     notifications := notifications st |}.

(** The store after a completed [Notification.create(n)]. *)
Definition notified (n : Notification.t) (st : Store) : Store :=
  {| assignments := assignments st;
     teachers := teachers st;
     notifications := notifications st ++ [n] |}.

(** [await assignment.save()] *)
Definition Assignment_save (env : Env) (a : Assignment.doc) : M unit :=
  storage env OpSave (AssignmentSave (Assignment._id a)) (λ st, (tt, saved a st)).

(** [await Teacher.findById(id)] *)
Definition Teacher_findById (env : Env) (id : string) : M (option Teacher.t) :=
  storage env OpFindTeacher (TeacherFindById id)
    (λ st, (teachers st !! id, st)).

(** [await Notification.create(n)] *)
Definition Notification_create (env : Env) (n : Notification.t) : M unit :=
  storage env OpCreateNotification (NotificationCreate n) (λ st, (tt, notified n st)).

(** [assignment.submissions.id(submissionId)]: the first embedded
    submission with that [_id], with its position in the array. *)
Fixpoint submissions_id (subs : list Submission.t) (id : string) : option (nat * Submission.t) :=
  match subs with
  | [] => None
  | sub :: rest =>
      if String.eqb (Submission._id sub) id then Some (0, sub)
      else (λ p, (S (fst p), snd p)) <$> submissions_id rest id
  end.

(** ** The handler *)

(** The double-quote character of the notification message. *)
Definition dquote : string := String "034"%char EmptyString.

(** Lines 110-113: the four assignments to the found submission.  The
    values are kept as they are assigned, which is what the document holds
    for a numeric grade and a text feedback (see [schema_admits]); how the
    schema treats a value of another type is not part of the handler. *)
Definition graded (grade feedback : jsvar) (at_ : Z) (submission : Submission.t) : Submission.t :=
  {| Submission._id := Submission._id submission;
     Submission.studentId := Submission.studentId submission;
     Submission.grade := grade;
     Submission.feedback := feedback;
     Submission.status := "graded";
     Submission.gradedAt := Some at_ |}.

(** The assignment aggregate after the submission at position [i] has been
    assigned to in place. *)
Definition with_submission (assignment : Assignment.doc) (i : nat) (submission : Submission.t)
    : Assignment.doc :=
  Assignment.Doc (Assignment._id assignment)
    {| Assignment.teacherId := Assignment.teacherId (Assignment.fields assignment);
       Assignment.title := Assignment.title (Assignment.fields assignment);
       Assignment.submissions := <[i := submission]> (Assignment.submissions (Assignment.fields assignment)) |}.

(** Lines 128-137: the notification for the student. *)
Definition graded_notification (studentId teacherId teacherName : string)
    (assignment : Assignment.doc) : Notification.t :=
  {| Notification.recipientId := studentId;
     Notification.recipientModel := "Student";
     Notification.senderId := teacherId;
     Notification.senderModel := "Teacher";
     Notification.type := "assignment_graded";
     Notification.message :=
       teacherName ++ " has graded your assignment " ++ dquote
         ++ Assignment.title (Assignment.fields assignment) ++ dquote;
     Notification.relatedDocId := Assignment._id assignment;
     Notification.read := false |}.

(** Lines 19-146: the body of the outer [try]. *)
Definition POST_try (env : Env) (request : NextRequest) (params : Params) : M NextResponse :=
  let assignmentId := params_id params in
  let submissionId := params_submissionId params in
  token ← cookies_get request "auth-token";
  if negb (truthy_string token) then
    mret (NextResponse_json (Failure "Unauthorized") 401)
  else
  decoded ← jwt_verify env (default "" token);
  match decoded with
  | inl _ => mret (NextResponse_json (Failure "Invalid token") 401)
  | inr decoded =>
  if negb (String.eqb (role decoded) "teacher") then
    mret (NextResponse_json (Failure "Access denied - only teachers can grade assignments") 403)
  else
  body ← request_json request;
  '(grade, feedback) ← lift (destructure body);
  if is_undefined grade || negb (truthy feedback) then
    mret (NextResponse_json (Failure "Grade and feedback are required") 400)
  else
  _ ← connectToDatabase env;
  assignment ← Assignment_findById env assignmentId;
  match assignment with
  | None => mret (NextResponse_json (Failure "Assignment not found") 404)
  | Some assignment =>
  let teacherId := userId decoded in
  if negb (String.eqb (Assignment.teacherId (Assignment.fields assignment)) teacherId) then
    mret (NextResponse_json (Failure "Not authorized to grade this assignment") 403)
  else
  match submissions_id (Assignment.submissions (Assignment.fields assignment)) submissionId with
  | None => mret (NextResponse_json (Failure "Submission not found") 404)
  | Some (i, submission) =>
  let submission := graded grade feedback (now env) submission in
  let assignment := with_submission assignment i submission in
  _ ← Assignment_save env assignment;
  let studentId := Submission.studentId submission in
  teacher ← Teacher_findById env teacherId;
  _ ← match teacher with
      | Some teacher =>
          let teacherName := Teacher.firstName teacher ++ " " ++ Teacher.lastName teacher in
          Notification_create env (graded_notification studentId teacherId teacherName assignment)
      | None => mret tt
      end;
  mret (NextResponse_json (Success "Submission graded successfully" submission) 200)
  end
  end
  end.

(** [try { m } catch (error) { handler }] *)
Definition try_catch {A : Type} (m : M A) (handler : exn → M A) : M A :=
  λ s, match m s with
       | (inl error, s') => handler error s'
       | (inr a, s') => (inr a, s')
       end.

(** Lines 14-155: the handler, with its catch-all. *)
Definition POST (env : Env) (request : NextRequest) (params : Params) : M NextResponse :=
  try_catch (POST_try env request params)
    (λ error, mret (NextResponse_json (Failure "Failed to grade submission") 500)).

(** ** A sample world *)

Module Sample.
Definition sub1 : Submission.t :=
  {| Submission._id := "s1"; Submission.studentId := "stu1";
     Submission.grade := None; Submission.feedback := None;
     Submission.status := "submitted"; Submission.gradedAt := None |}.
Definition sub2 : Submission.t :=
  {| Submission._id := "s2"; Submission.studentId := "stu2";
     Submission.grade := None; Submission.feedback := None;
     Submission.status := "submitted"; Submission.gradedAt := None |}.
Definition hw : Assignment.t :=
  {| Assignment.teacherId := "t1"; Assignment.title := "Essay";
     Assignment.submissions := [sub1; sub2] |}.
Definition ada : Teacher.t :=
  {| Teacher.firstName := "Ada"; Teacher.lastName := "Byron" |}.
Definition store : Store :=
  {| assignments := {["a1" := hw]}; teachers := {["t1" := ada]}; notifications := [] |}.
Definition start : State := {| db := store; calls := [] |}.

(** Tokens: ["tok-t1"] is teacher [t1], ["tok-t2"] is teacher [t2],
    ["tok-stu"] is a student; anything else does not verify. *)
Definition tokens (token : string) : exn + JwtPayload :=
  if String.eqb token "tok-t1" then inr {| userId := "t1"; role := "teacher" |}
  else if String.eqb token "tok-t2" then inr {| userId := "t2"; role := "teacher" |}
  else if String.eqb token "tok-stu" then inr {| userId := "stu1"; role := "student" |}
  else inl (Thrown "JsonWebTokenError" "jwt malformed").

Definition no_fault : Op → option exn := λ _, None.
Definition env : Env := {| verify := tokens; now := 1000; fault := no_fault |}.

Definition boom : exn := Thrown "MongoNetworkError" "connection 10.0.0.7:27017 closed".

(** The environment in which exactly the storage call [op] raises. *)
Definition failing (op : Op) : Env :=
  {| verify := tokens; now := 1000;
     fault := λ o, match op, o with
                   | OpConnect, OpConnect
                   | OpFindAssignment, OpFindAssignment
                   | OpSave, OpSave
                   | OpFindTeacher, OpFindTeacher
                   | OpCreateNotification, OpCreateNotification => Some boom
                   | _, _ => None
                   end |}.

Definition body (grade feedback : jsval) : jsval :=
  JObj [("grade", grade); ("feedback", feedback)].

Definition request (token : string) (b : exn + jsval) : NextRequest :=
  {| cookies := {["auth-token" := token]}; json := b |}.

Definition good : NextRequest := request "tok-t1" (inr (body (JNum 85) (JStr "Good work"))).

Definition params : Params := {| params_id := "a1"; params_submissionId := "s2" |}.
End Sample.


(** ** The seven checks, as conditions on the input *)

Inductive Check : Type :=
| CheckCookie | CheckToken | CheckRole | CheckBody
| CheckAssignment | CheckOwner | CheckSubmission.

(** The response of each failing check. *)
Definition failure_response (c : Check) : NextResponse :=
  match c with
  | CheckCookie => NextResponse_json (Failure "Unauthorized") 401
  | CheckToken => NextResponse_json (Failure "Invalid token") 401
  | CheckRole =>
      NextResponse_json (Failure "Access denied - only teachers can grade assignments") 403
  | CheckBody => NextResponse_json (Failure "Grade and feedback are required") 400
  | CheckAssignment => NextResponse_json (Failure "Assignment not found") 404
  | CheckOwner => NextResponse_json (Failure "Not authorized to grade this assignment") 403
  | CheckSubmission => NextResponse_json (Failure "Submission not found") 404
  end.

(** The response of the catch-all. *)
Definition internal_error : NextResponse :=
  NextResponse_json (Failure "Failed to grade submission") 500.

(** The success response. *)
Definition graded_response (submission : Submission.t) : NextResponse :=
  NextResponse_json (Success "Submission graded successfully" submission) 200.

(** The state after further collaborator calls that left the store alone. *)
Definition logged (s : State) (made : list Call) : State :=
  {| db := db s; calls := calls s ++ made |}.

Section Checks.
Variables (env : Env) (request : NextRequest) (params : Params) (st : Store).

(** Checks 1-3: the cookie holds [token], which verifies to [decoded], a teacher. *)
Definition has_token (token : string) : Prop :=
  cookies request !! "auth-token" = Some token ∧ String.eqb token "" = false.

Definition authenticated (token : string) (decoded : JwtPayload) : Prop :=
  has_token token ∧ verify env token = inr decoded.

Definition is_teacher (token : string) (decoded : JwtPayload) : Prop :=
  authenticated token decoded ∧ role decoded = "teacher".

(** The body parses and destructures to [grade] and [feedback]. *)
Definition parsed (grade feedback : jsvar) : Prop :=
  ∃ body, json request = inr body ∧ destructure body = inr (grade, feedback).

(** Check 4. *)
Definition valid_body (grade feedback : jsvar) : Prop :=
  parsed grade feedback ∧ is_undefined grade = false ∧ truthy feedback = true.

(** The database is reached and the assignment lookup returns. *)
Definition lookup_returns : Prop :=
  fault env OpConnect = None ∧ fault env OpFindAssignment = None.

(** Checks 1-7 all pass: the token is [token] and decodes to [decoded],
    the body carries [grade] and [feedback], the assignment is [a], and
    the submission is [submission], at position [i] of its array. *)
Definition checks_pass (token : string) (decoded : JwtPayload) (grade feedback : jsvar)
    (a : Assignment.t) (i : nat) (submission : Submission.t) : Prop :=
  is_teacher token decoded ∧
  valid_body grade feedback ∧
  lookup_returns ∧
  assignments st !! params_id params = Some a ∧
  Assignment.teacherId a = userId decoded ∧
  submissions_id (Assignment.submissions a) (params_submissionId params) = Some (i, submission).

(** [fails_at c made]: every check before [c] passes, the calls before
    [c] return, and [c] fails; [made] are the collaborator calls the
    checks up to [c] need. *)
Inductive fails_at : Check → list Call → Prop :=
| fails_cookie :
    truthy_string (cookies request !! "auth-token") = false →
    fails_at CheckCookie [CookiesGet "auth-token"]
| fails_token token e :
    has_token token →
    verify env token = inl e →
    fails_at CheckToken [CookiesGet "auth-token"; Verify token]
| fails_role token decoded :
    authenticated token decoded →
    String.eqb (role decoded) "teacher" = false →
    fails_at CheckRole [CookiesGet "auth-token"; Verify token]
| fails_body token decoded grade feedback :
    is_teacher token decoded →
    parsed grade feedback →
    is_undefined grade || negb (truthy feedback) = true →
    fails_at CheckBody [CookiesGet "auth-token"; Verify token; RequestJson]
| fails_assignment token decoded grade feedback :
    is_teacher token decoded →
    valid_body grade feedback →
    lookup_returns →
    assignments st !! params_id params = None →
    fails_at CheckAssignment
      [CookiesGet "auth-token"; Verify token; RequestJson; ConnectToDatabase;
       AssignmentFindById (params_id params)]
| fails_owner token decoded grade feedback a :
    is_teacher token decoded →
    valid_body grade feedback →
    lookup_returns →
    assignments st !! params_id params = Some a →
    String.eqb (Assignment.teacherId a) (userId decoded) = false →
    fails_at CheckOwner
      [CookiesGet "auth-token"; Verify token; RequestJson; ConnectToDatabase;
       AssignmentFindById (params_id params)]
| fails_submission token decoded grade feedback a :
    is_teacher token decoded →
    valid_body grade feedback →
    lookup_returns →
    assignments st !! params_id params = Some a →
    Assignment.teacherId a = userId decoded →
    submissions_id (Assignment.submissions a) (params_submissionId params) = None →
    fails_at CheckSubmission
      [CookiesGet "auth-token"; Verify token; RequestJson; ConnectToDatabase;
       AssignmentFindById (params_id params)].
End Checks.

(** ** The run after the checks *)

Section GradedAggregate.
Variables (env : Env) (params : Params).
Variables (token : string) (decoded : JwtPayload) (grade feedback : jsvar).
Variables (a : Assignment.t) (i : nat) (submission : Submission.t).

(** The calls made by the seven checks. *)
Definition checked_calls : list Call :=
  [CookiesGet "auth-token"; Verify token; RequestJson; ConnectToDatabase;
   AssignmentFindById (params_id params)].

(** The submission and the aggregate as the handler leaves them in memory. *)
Definition graded_submission : Submission.t :=
  graded grade feedback (now env) submission.

Definition graded_assignment : Assignment.doc :=
  with_submission (Assignment.Doc (params_id params) a) i graded_submission.

(** The notification of a teacher record [teacher]. *)
Definition notification_from (teacher : Teacher.t) : Notification.t :=
  graded_notification (Submission.studentId submission) (userId decoded)
    (Teacher.firstName teacher ++ " " ++ Teacher.lastName teacher) graded_assignment.
End GradedAggregate.

(** ** Every run of the handler *)

(** [path env request params s out]: the ways a run of [POST] from [s] can
    go, each with the result [out] it ends in.  [POST_path] shows that
    every run is one of them. *)
Inductive path (env : Env) (request : NextRequest) (params : Params) (s : State)
    : (exn + NextResponse) * State → Prop :=
| path_check_fails c made :
    fails_at env request params (db s) c made →
    path env request params s (inr (failure_response c), logged s made)
| path_json_rejects token decoded e :
    is_teacher env request token decoded →
    json request = inl e →
    path env request params s
      (inr internal_error, logged s [CookiesGet "auth-token"; Verify token; RequestJson])
| path_destructure_raises token decoded body e :
    is_teacher env request token decoded →
    json request = inr body →
    destructure body = inl e →
    path env request params s
      (inr internal_error, logged s [CookiesGet "auth-token"; Verify token; RequestJson])
| path_connect_raises token decoded grade feedback e :
    is_teacher env request token decoded →
    valid_body request grade feedback →
    fault env OpConnect = Some e →
    path env request params s
      (inr internal_error,
       logged s [CookiesGet "auth-token"; Verify token; RequestJson; ConnectToDatabase])
| path_find_raises token decoded grade feedback e :
    is_teacher env request token decoded →
    valid_body request grade feedback →
    fault env OpConnect = None →
    fault env OpFindAssignment = Some e →
    path env request params s
      (inr internal_error, logged s (checked_calls params token))
| path_save_raises token decoded grade feedback a i submission e :
    checks_pass env request params (db s) token decoded grade feedback a i submission →
    fault env OpSave = Some e →
    path env request params s
      (inr internal_error,
       logged s (checked_calls params token ++ [AssignmentSave (params_id params)]))
| path_teacher_lookup_raises token decoded grade feedback a i submission e :
    checks_pass env request params (db s) token decoded grade feedback a i submission →
    fault env OpSave = None →
    fault env OpFindTeacher = Some e →
    path env request params s
      (inr internal_error,
       {| db := saved (graded_assignment env params grade feedback a i submission) (db s);
          calls := calls s ++ checked_calls params token
                     ++ [AssignmentSave (params_id params); TeacherFindById (userId decoded)] |})
| path_teacher_absent token decoded grade feedback a i submission :
    checks_pass env request params (db s) token decoded grade feedback a i submission →
    fault env OpSave = None →
    fault env OpFindTeacher = None →
    teachers (db s) !! userId decoded = None →
    path env request params s
      (inr (graded_response (graded_submission env grade feedback submission)),
       {| db := saved (graded_assignment env params grade feedback a i submission) (db s);
          calls := calls s ++ checked_calls params token
                     ++ [AssignmentSave (params_id params); TeacherFindById (userId decoded)] |})
| path_create_raises token decoded grade feedback a i submission teacher e :
    checks_pass env request params (db s) token decoded grade feedback a i submission →
    fault env OpSave = None →
    fault env OpFindTeacher = None →
    teachers (db s) !! userId decoded = Some teacher →
    fault env OpCreateNotification = Some e →
    path env request params s
      (inr internal_error,
       {| db := saved (graded_assignment env params grade feedback a i submission) (db s);
          calls := calls s ++ checked_calls params token
                     ++ [AssignmentSave (params_id params); TeacherFindById (userId decoded);
                         NotificationCreate
                           (notification_from env params decoded grade feedback a i submission teacher)] |})
| path_notified token decoded grade feedback a i submission teacher :
    checks_pass env request params (db s) token decoded grade feedback a i submission →
    fault env OpSave = None →
    fault env OpFindTeacher = None →
    teachers (db s) !! userId decoded = Some teacher →
    fault env OpCreateNotification = None →
    path env request params s
      (inr (graded_response (graded_submission env grade feedback submission)),
       {| db := notified (notification_from env params decoded grade feedback a i submission teacher)
                  (saved (graded_assignment env params grade feedback a i submission) (db s));
          calls := calls s ++ checked_calls params token
                     ++ [AssignmentSave (params_id params); TeacherFindById (userId decoded);
                         NotificationCreate
                           (notification_from env params decoded grade feedback a i submission teacher)] |}).

(** ** Vocabulary of the properties *)

(** A call that writes to the store. *)
Definition is_write (call : Call) : bool :=
  match call with
  | AssignmentSave _ | NotificationCreate _ => true
  | _ => false
  end.

(** The position of a check in the fixed order. *)
Definition check_rank (c : Check) : nat :=
  match c with
  | CheckCookie => 1
  | CheckToken => 2
  | CheckRole => 3
  | CheckBody => 4
  | CheckAssignment => 5
  | CheckOwner => 6
  | CheckSubmission => 7
  end.

(** The check a collaborator call serves: the position of the first check
    that needs its result; the calls after the checks come eighth. *)
Definition call_rank (call : Call) : nat :=
  match call with
  | CookiesGet _ => 1
  | Verify _ => 2
  | RequestJson => 4
  | ConnectToDatabase | AssignmentFindById _ => 5
  | AssignmentSave _ | TeacherFindById _ | NotificationCreate _ => 8
  end.

(** The environment of a later request: the same verifier and storage, a later clock. *)
Definition at_time (env : Env) (t : Z) : Env :=
  {| verify := verify env; now := t; fault := fault env |}.

Definition is_Some_b {A : Type} (o : option A) : bool :=
  match o with Some _ => true | None => false end.

(** Whether a collaborator call raises into the outer [try].  A token that
    does not verify is caught by the inner [try] and is a failed check. *)
Definition raises (env : Env) (request : NextRequest) (call : Call) : bool :=
  match call with
  | CookiesGet _ | Verify _ => false
  | RequestJson => match json request with inl _ => true | inr _ => false end
  | ConnectToDatabase => is_Some_b (fault env OpConnect)
  | AssignmentFindById _ => is_Some_b (fault env OpFindAssignment)
  | AssignmentSave _ => is_Some_b (fault env OpSave)
  | TeacherFindById _ => is_Some_b (fault env OpFindTeacher)
  | NotificationCreate _ => is_Some_b (fault env OpCreateNotification)
  end.

(** The fixed responses of the handler. *)
Definition fixed_failures : list (Z * string) :=
  [(401%Z, "Unauthorized"); (401%Z, "Invalid token");
   (403%Z, "Access denied - only teachers can grade assignments");
   (400%Z, "Grade and feedback are required");
   (404%Z, "Assignment not found");
   (403%Z, "Not authorized to grade this assignment");
   (404%Z, "Submission not found");
   (500%Z, "Failed to grade submission")].

Definition is_fixed (response : NextResponse) : Prop :=
  match body response with
  | Failure error => In (status response, error) fixed_failures
  | Success message _ => status response = 200%Z ∧ message = "Submission graded successfully"
  end.


(** The grade stored for submission [s2] when the sample request carries [value]. *)
Definition stored_grade (value : jsval) : option jsvar :=
  a ← assignments
         (db (POST Sample.env (Sample.request "tok-t1" (inr (Sample.body value (JStr "Noted"))))
                Sample.params Sample.start).2) !! "a1";
  Submission.grade <$> Assignment.submissions a !! 1%nat.


(** ** Running the handler *)

Ltac unfold_handler :=
  unfold POST, try_catch, POST_try, cookies_get, jwt_verify, request_json,
    connectToDatabase, Assignment_findById, Assignment_save, Teacher_findById,
    Notification_create, storage, note, lift, throw;
  unfold mbind, M_bind, mret, M_ret.

(** Unpack the conditions of [Section Checks]. *)
Ltac unpack :=
  unfold checks_pass, valid_body, parsed, is_teacher, authenticated, has_token,
    lookup_returns in *;
  repeat match goal with
         | H : _ ∧ _ |- _ => destruct H
         | H : ∃ _, _ |- _ => destruct H
         end.

(** Run the handler along the path the hypotheses select. *)
Ltac run :=
  unfold_handler; cbn beta iota;
  repeat (first [ rewrite String.eqb_refl
                | match goal with H : ?l = _ |- context [?l] => rewrite H end ];
          cbn);
  unfold logged; cbn; rewrite <- ?app_assoc; try reflexivity.

Lemma POST_fails_at env request params s c made :
  fails_at env request params (db s) c made →
  POST env request params s = (inr (failure_response c), logged s made).
Proof.
  intros H. destruct H; unpack; run.
Qed.

Section Graded.
Variables (env : Env) (request : NextRequest) (params : Params) (s : State).
Variables (token : string) (decoded : JwtPayload) (grade feedback : jsvar).
Variables (a : Assignment.t) (i : nat) (submission : Submission.t).

(** All seven checks pass. *)
Local Abbreviation pass :=
  (checks_pass env request params (db s) token decoded grade feedback a i submission).
Local Abbreviation checked := (checked_calls params token).
Local Abbreviation submission' := (graded_submission env grade feedback submission).
Local Abbreviation assignment' := (graded_assignment env params grade feedback a i submission).
Local Abbreviation notification teacher :=
  (notification_from env params decoded grade feedback a i submission teacher).


Lemma POST_save_raises e :
  pass →
  fault env OpSave = Some e →
  POST env request params s
  = (inr internal_error,
     logged s (checked ++ [AssignmentSave (params_id params)])).
Proof. intros P Hs. unpack. run. Qed.

Lemma POST_teacher_lookup_raises e :
  pass →
  fault env OpSave = None →
  fault env OpFindTeacher = Some e →
  POST env request params s
  = (inr internal_error,
     {| db := saved assignment' (db s);
        calls := calls s ++ checked
                   ++ [AssignmentSave (params_id params); TeacherFindById (userId decoded)] |}).
Proof. intros P Hs Ht. unpack. run. Qed.

Lemma POST_teacher_absent :
  pass →
  fault env OpSave = None →
  fault env OpFindTeacher = None →
  teachers (db s) !! userId decoded = None →
  POST env request params s
  = (inr (graded_response submission'),
     {| db := saved assignment' (db s);
        calls := calls s ++ checked
                   ++ [AssignmentSave (params_id params); TeacherFindById (userId decoded)] |}).
Proof. intros P Hs Ht Hn. unpack. run. Qed.

Lemma POST_create_raises teacher e :
  pass →
  fault env OpSave = None →
  fault env OpFindTeacher = None →
  teachers (db s) !! userId decoded = Some teacher →
  fault env OpCreateNotification = Some e →
  POST env request params s
  = (inr internal_error,
     {| db := saved assignment' (db s);
        calls := calls s ++ checked
                   ++ [AssignmentSave (params_id params); TeacherFindById (userId decoded);
                       NotificationCreate (notification teacher)] |}).
Proof. intros P Hs Ht Hn Hc. unpack. run. Qed.

Lemma POST_notified teacher :
  pass →
  fault env OpSave = None →
  fault env OpFindTeacher = None →
  teachers (db s) !! userId decoded = Some teacher →
  fault env OpCreateNotification = None →
  POST env request params s
  = (inr (graded_response submission'),
     {| db := notified (notification teacher) (saved assignment' (db s));
        calls := calls s ++ checked
                   ++ [AssignmentSave (params_id params); TeacherFindById (userId decoded);
                       NotificationCreate (notification teacher)] |}).
Proof. intros P Hs Ht Hn Hc. unpack. run. Qed.
End Graded.

(** Exceptions raised while the checks are still running. *)
Section Raised.
Variables (env : Env) (request : NextRequest) (params : Params) (s : State).
Variables (token : string) (decoded : JwtPayload).

Lemma POST_json_rejects e :
  is_teacher env request token decoded →
  json request = inl e →
  POST env request params s
  = (inr internal_error, logged s [CookiesGet "auth-token"; Verify token; RequestJson]).
Proof. intros P Hb. unpack. run. Qed.

Lemma POST_destructure_raises body e :
  is_teacher env request token decoded →
  json request = inr body →
  destructure body = inl e →
  POST env request params s
  = (inr internal_error, logged s [CookiesGet "auth-token"; Verify token; RequestJson]).
Proof. intros P Hb Hd. unpack. run. Qed.

Lemma POST_connect_raises grade feedback e :
  is_teacher env request token decoded →
  valid_body request grade feedback →
  fault env OpConnect = Some e →
  POST env request params s
  = (inr internal_error,
     logged s [CookiesGet "auth-token"; Verify token; RequestJson; ConnectToDatabase]).
Proof. intros P V Hc. unpack. run. Qed.

Lemma POST_find_raises grade feedback e :
  is_teacher env request token decoded →
  valid_body request grade feedback →
  fault env OpConnect = None →
  fault env OpFindAssignment = Some e →
  POST env request params s
  = (inr internal_error,
     logged s [CookiesGet "auth-token"; Verify token; RequestJson; ConnectToDatabase;
               AssignmentFindById (params_id params)]).
Proof. intros P V Hc Hf. unpack. run. Qed.
End Raised.


Lemma truthy_string_Some token : truthy_string (Some token) = negb (String.eqb token "").
Proof. reflexivity. Qed.

(** A failing check ends the run in its response. *)
Ltac by_check F :=
  rewrite (POST_fails_at _ _ _ _ _ _ F); exact (path_check_fails _ _ _ _ _ _ F).

Lemma POST_path env request params s :
  path env request params s (POST env request params s).
Proof.
  destruct (cookies request !! "auth-token") as [token|] eqn:Hcookie; cycle 1.
  { assert (F : fails_at env request params (db s) CheckCookie [CookiesGet "auth-token"])
      by (constructor; rewrite Hcookie; reflexivity).
    by_check F. }
  destruct (String.eqb token "") eqn:Hnonempty.
  { assert (F : fails_at env request params (db s) CheckCookie [CookiesGet "auth-token"])
      by (constructor; rewrite Hcookie, truthy_string_Some, Hnonempty; reflexivity).
    by_check F. }
  assert (T : has_token request token) by (split; assumption).
  destruct (verify env token) as [e|decoded] eqn:Hverify.
  { pose proof (fails_token env request params (db s) token e T Hverify) as F. by_check F. }
  assert (A : authenticated env request token decoded) by (split; assumption).
  destruct (String.eqb (role decoded) "teacher") eqn:Hrole; cycle 1.
  { pose proof (fails_role env request params (db s) token decoded A Hrole) as F. by_check F. }
  apply String.eqb_eq in Hrole.
  assert (R : is_teacher env request token decoded) by (split; assumption).
  destruct (json request) as [e|body] eqn:Hjson.
  { rewrite (POST_json_rejects _ _ _ _ _ _ e R Hjson). eapply path_json_rejects; eassumption. }
  destruct (destructure body) as [e|[grade feedback]] eqn:Hdes.
  { rewrite (POST_destructure_raises _ _ _ _ _ _ body e R Hjson Hdes).
    eapply path_destructure_raises; eassumption. }
  assert (Pa : parsed request grade feedback) by (exists body; split; assumption).
  destruct (is_undefined grade || negb (truthy feedback)) eqn:Hvalid.
  { pose proof (fails_body env request params (db s) token decoded grade feedback R Pa Hvalid) as F.
    by_check F. }
  apply orb_false_elim in Hvalid as [Hgrade Hfeedback].
  apply negb_false_iff in Hfeedback.
  assert (V : valid_body request grade feedback) by (repeat split; assumption).
  destruct (fault env OpConnect) as [e|] eqn:Hconnect.
  { rewrite (POST_connect_raises _ _ _ _ _ _ grade feedback e R V Hconnect).
    eapply path_connect_raises; eassumption. }
  destruct (fault env OpFindAssignment) as [e|] eqn:Hfind.
  { rewrite (POST_find_raises _ _ _ _ _ _ grade feedback e R V Hconnect Hfind).
    eapply path_find_raises; eassumption. }
  assert (L : lookup_returns env) by (split; assumption).
  destruct (assignments (db s) !! params_id params) as [a|] eqn:Hassignment; cycle 1.
  { pose proof (fails_assignment env request params (db s) token decoded grade feedback
                  R V L Hassignment) as F.
    by_check F. }
  destruct (String.eqb (Assignment.teacherId a) (userId decoded)) eqn:Howner; cycle 1.
  { pose proof (fails_owner env request params (db s) token decoded grade feedback a
                  R V L Hassignment Howner) as F.
    by_check F. }
  apply String.eqb_eq in Howner.
  destruct (submissions_id (Assignment.submissions a) (params_submissionId params))
    as [[i submission]|] eqn:Hsubmission; cycle 1.
  { pose proof (fails_submission env request params (db s) token decoded grade feedback a
                  R V L Hassignment Howner Hsubmission) as F.
    by_check F. }
  assert (P : checks_pass env request params (db s) token decoded grade feedback a i submission)
    by (repeat split; assumption).
  destruct (fault env OpSave) as [e|] eqn:Hsave.
  { rewrite (POST_save_raises _ _ _ _ _ _ _ _ _ _ _ e P Hsave).
    eapply path_save_raises; eassumption. }
  destruct (fault env OpFindTeacher) as [e|] eqn:Hlookup.
  { rewrite (POST_teacher_lookup_raises _ _ _ _ _ _ _ _ _ _ _ e P Hsave Hlookup).
    eapply path_teacher_lookup_raises; eassumption. }
  destruct (teachers (db s) !! userId decoded) as [teacher|] eqn:Hteacher; cycle 1.
  { rewrite (POST_teacher_absent _ _ _ _ _ _ _ _ _ _ _ P Hsave Hlookup Hteacher).
    eapply path_teacher_absent; eassumption. }
  destruct (fault env OpCreateNotification) as [e|] eqn:Hcreate.
  { rewrite (POST_create_raises _ _ _ _ _ _ _ _ _ _ _ teacher e P Hsave Hlookup Hteacher Hcreate).
    eapply path_create_raises; eassumption. }
  rewrite (POST_notified _ _ _ _ _ _ _ _ _ _ _ teacher P Hsave Hlookup Hteacher Hcreate).
  eapply path_notified; eassumption.
Qed.

(** ** The embedded submission array *)

Lemma submissions_id_lookup (subs : list Submission.t) id i sub :
  submissions_id subs id = Some (i, sub) → subs !! i = Some sub.
Proof.
  revert i. induction subs as [|x rest IH]; intros i; cbn; [discriminate|].
  destruct (String.eqb (Submission._id x) id).
  - intros [= <- <-]. reflexivity.
  - destruct (submissions_id rest id) as [[j y]|]; cbn; [|discriminate].
    intros [= <- <-]. cbn. apply IH. reflexivity.
Qed.

Lemma submissions_id_matches (subs : list Submission.t) id i sub :
  submissions_id subs id = Some (i, sub) → Submission._id sub = id.
Proof.
  revert i. induction subs as [|x rest IH]; intros i; cbn; [discriminate|].
  destruct (String.eqb (Submission._id x) id) eqn:E.
  - intros [= <- <-]. apply String.eqb_eq. exact E.
  - destruct (submissions_id rest id) as [[j y]|]; cbn; [|discriminate].
    intros [= <- <-]. apply (IH j). reflexivity.
Qed.

(** Assigning to the found submission in place keeps it findable under the
    same id, at the same position. *)
Lemma submissions_id_insert (subs : list Submission.t) id i sub sub' :
  submissions_id subs id = Some (i, sub) →
  Submission._id sub' = Submission._id sub →
  submissions_id (<[i := sub']> subs) id = Some (i, sub').
Proof.
  intros H Hid. pose proof (submissions_id_matches _ _ _ _ H) as Hm.
  revert i H. induction subs as [|x rest IH]; intros i; cbn; [discriminate|].
  destruct (String.eqb (Submission._id x) id) eqn:E.
  - intros [= <- <-]. cbn. rewrite Hid, E. reflexivity.
  - destruct (submissions_id rest id) as [[j y]|] eqn:R; cbn; [|discriminate].
    intros [= <- <-]. cbn. rewrite E.
    change (Some (S j, sub')) with ((λ p : nat * Submission.t, (S p.1, p.2)) <$> Some (j, sub')).
    f_equal. exact (IH j eq_refl).
Qed.

(** The sample request passes all seven checks on the sample store. *)
Lemma sample_checks_pass env :
  verify env = Sample.tokens →
  fault env OpConnect = None →
  fault env OpFindAssignment = None →
  checks_pass env Sample.good Sample.params Sample.store "tok-t1"
    {| userId := "t1"; role := "teacher" |}
    (Some (JNum 85)) (Some (JStr "Good work")) Sample.hw 1 Sample.sub2.
Proof.
  intros Hv Hc Hf. unfold checks_pass, is_teacher, authenticated, has_token, valid_body,
    parsed, lookup_returns. rewrite Hv.
  repeat split; try assumption; try reflexivity.
  exists (Sample.body (JNum 85) (JStr "Good work")). split; reflexivity.
Defined.

(** ** Properties of the handler *)

(** C3.  When all seven checks pass and the storage calls that follow
    return, the handler assigns the body's grade and feedback to the found
    submission, marks it graded at the current time, saves the whole
    aggregate, and answers 200 with [success: true] and that submission; the
    stored submission is then graded, with a graded-at time. *)
Theorem graded_submission_is_saved_and_returned
    env request params s token decoded grade feedback a i submission :
  checks_pass env request params (db s) token decoded grade feedback a i submission →
  fault env OpSave = None →
  fault env OpFindTeacher = None →
  fault env OpCreateNotification = None →
  ∃ response s' a' submission',
    POST env request params s = (inr response, s')
    ∧ response = NextResponse_json (Success "Submission graded successfully" submission') 200
    ∧ success response = true
    ∧ Submission._id submission' = Submission._id submission
    ∧ Submission.studentId submission' = Submission.studentId submission
    ∧ Submission.grade submission' = grade
    ∧ Submission.feedback submission' = feedback
    ∧ Submission.status submission' = "graded"
    ∧ Submission.gradedAt submission' = Some (now env)
    ∧ assignments (db s') !! params_id params = Some a'
    ∧ Assignment.teacherId a' = Assignment.teacherId a
    ∧ Assignment.title a' = Assignment.title a
    ∧ Assignment.submissions a' = <[i := submission']> (Assignment.submissions a)
    ∧ submissions_id (Assignment.submissions a') (params_submissionId params) = Some (i, submission')
    ∧ Submission.gradedAt submission' ≠ None.
Proof.
  intros P Hsave Hlookup Hcreate.
  assert (Hfound : submissions_id (Assignment.submissions a) (params_submissionId params)
                   = Some (i, submission)) by (unpack; assumption).
  destruct (teachers (db s) !! userId decoded) as [teacher|] eqn:Hteacher.
  - eexists _, _, _, (graded grade feedback (now env) submission).
    split. { apply (POST_notified _ _ _ _ _ _ _ _ _ _ _ teacher P Hsave Hlookup Hteacher Hcreate). }
    cbn. rewrite lookup_insert_eq.
    repeat split; try reflexivity.
    + cbn. apply (submissions_id_insert _ _ _ submission); [assumption|reflexivity].
    + discriminate.
  - eexists _, _, _, (graded grade feedback (now env) submission).
    split. { apply (POST_teacher_absent _ _ _ _ _ _ _ _ _ _ _ P Hsave Hlookup Hteacher). }
    cbn. rewrite lookup_insert_eq.
    repeat split; try reflexivity.
    + cbn. apply (submissions_id_insert _ _ _ submission); [assumption|reflexivity].
    + discriminate.
Qed.

Lemma graded_submission_is_saved_and_returned_witness :
  ∃ s', POST Sample.env Sample.good Sample.params Sample.start
        = (inr (NextResponse_json
                  (Success "Submission graded successfully"
                     {| Submission._id := "s2"; Submission.studentId := "stu2";
                        Submission.grade := Some (JNum 85);
                        Submission.feedback := Some (JStr "Good work");
                        Submission.status := "graded";
                        Submission.gradedAt := Some 1000%Z |}) 200), s').
Proof.
  destruct (graded_submission_is_saved_and_returned
              Sample.env Sample.good Sample.params Sample.start "tok-t1"
              {| userId := "t1"; role := "teacher" |}
              (Some (JNum 85)) (Some (JStr "Good work")) Sample.hw 1 Sample.sub2
              (sample_checks_pass Sample.env eq_refl eq_refl eq_refl) eq_refl eq_refl eq_refl)
    as (response & s' & a' & [id0 student g f st t]
        & Hrun & -> & _ & Hid & Hstudent & Hg & Hf & Hst & Ht & _).
  cbn in Hid, Hstudent, Hg, Hf, Hst, Ht. subst. exists s'. exact Hrun.
Defined.

(** The sample request on an environment where the storage call [op] raises. *)
Lemma sample_checks_pass_failing op :
  op ≠ OpConnect → op ≠ OpFindAssignment →
  checks_pass (Sample.failing op) Sample.good Sample.params Sample.store "tok-t1"
    {| userId := "t1"; role := "teacher" |}
    (Some (JNum 85)) (Some (JStr "Good work")) Sample.hw 1 Sample.sub2.
Proof.
  intros H1 H2. apply sample_checks_pass; [reflexivity| |]; destruct op; done.
Defined.

(** C3, as stated, fails.  The sample request passes all seven checks; when
    the save raises, nothing is stored and the response is the 500 of the
    catch-all; when the notification creation raises, the aggregate is
    stored and the response is still that 500.  Neither run answers 200. *)
Lemma passing_checks_do_not_ensure_the_200 :
  checks_pass (Sample.failing OpSave) Sample.good Sample.params Sample.store
    "tok-t1" {| userId := "t1"; role := "teacher" |}
    (Some (JNum 85)) (Some (JStr "Good work")) Sample.hw 1 Sample.sub2
  ∧ POST (Sample.failing OpSave) Sample.good Sample.params Sample.start
    = (inr (NextResponse_json (Failure "Failed to grade submission") 500),
       logged Sample.start
         [CookiesGet "auth-token"; Verify "tok-t1"; RequestJson; ConnectToDatabase;
          AssignmentFindById "a1"; AssignmentSave "a1"])
  ∧ assignments (db (POST (Sample.failing OpSave) Sample.good Sample.params Sample.start).2) !! "a1"
    = Some Sample.hw
  ∧ checks_pass (Sample.failing OpCreateNotification) Sample.good Sample.params Sample.store
      "tok-t1" {| userId := "t1"; role := "teacher" |}
      (Some (JNum 85)) (Some (JStr "Good work")) Sample.hw 1 Sample.sub2
  ∧ (POST (Sample.failing OpCreateNotification) Sample.good Sample.params Sample.start).1
    = inr (NextResponse_json (Failure "Failed to grade submission") 500)
  ∧ success (NextResponse_json (Failure "Failed to grade submission") 500) = false
  ∧ status (NextResponse_json (Failure "Failed to grade submission") 500) ≠ 200%Z.
Proof.
  split. { apply sample_checks_pass_failing; discriminate. }
  split. { vm_compute. reflexivity. }
  split. { vm_compute. reflexivity. }
  split. { apply sample_checks_pass_failing; discriminate. }
  split. { vm_compute. reflexivity. }
  split; [reflexivity|discriminate].
Qed.

(** C1, as stated, fails.  The sample request passes all seven checks and
    its aggregate is saved; when the notification creation raises, or when
    the teacher lookup raises, the response is the 500 of the catch-all and
    not the 200 success response. *)
Lemma notification_failure_changes_the_outcome :
  checks_pass (Sample.failing OpCreateNotification) Sample.good Sample.params Sample.store
    "tok-t1" {| userId := "t1"; role := "teacher" |}
    (Some (JNum 85)) (Some (JStr "Good work")) Sample.hw 1 Sample.sub2
  ∧ fault (Sample.failing OpCreateNotification) OpSave = None
  ∧ fault (Sample.failing OpFindTeacher) OpSave = None
  ∧ (∃ s', POST (Sample.failing OpCreateNotification) Sample.good Sample.params Sample.start
           = (inr (NextResponse_json (Failure "Failed to grade submission") 500), s')
           ∧ (Assignment.submissions <$> assignments (db s') !! "a1")
             = Some [Sample.sub1; graded (Some (JNum 85)) (Some (JStr "Good work")) 1000 Sample.sub2])
  ∧ (∃ s', POST (Sample.failing OpFindTeacher) Sample.good Sample.params Sample.start
           = (inr (NextResponse_json (Failure "Failed to grade submission") 500), s')
           ∧ (Assignment.submissions <$> assignments (db s') !! "a1")
             = Some [Sample.sub1; graded (Some (JNum 85)) (Some (JStr "Good work")) 1000 Sample.sub2])
  ∧ status (NextResponse_json (Failure "Failed to grade submission") 500) ≠ 200%Z
  ∧ success (NextResponse_json (Failure "Failed to grade submission") 500) = false.
Proof.
  split. { apply sample_checks_pass_failing; discriminate. }
  split; [reflexivity|]. split; [reflexivity|].
  split. { eexists. split; vm_compute; reflexivity. }
  split. { eexists. split; vm_compute; reflexivity. }
  split; [discriminate|reflexivity].
Qed.

(** C1, amended.  When all seven checks pass and the aggregate is saved,
    the absence of the teacher record does not change the outcome: the
    response is the 200 success response and no notification is created.
    An exception raised by the teacher lookup or by the notification
    creation reaches the catch-all: the response is 500 with the generic
    error, the grade stays saved and no notification is stored. *)
Theorem teacher_absence_is_harmless_raising_is_not
    env request params s token decoded grade feedback a i submission :
  checks_pass env request params (db s) token decoded grade feedback a i submission →
  fault env OpSave = None →
  ∃ response s',
    POST env request params s = (inr response, s')
    ∧ assignments (db s')
      = <[params_id params := Assignment.fields (graded_assignment env params grade feedback a i submission)]>
          (assignments (db s))
    ∧ (fault env OpFindTeacher = None →
       teachers (db s) !! userId decoded = None →
       response = graded_response (graded grade feedback (now env) submission)
       ∧ notifications (db s') = notifications (db s))
    ∧ (fault env OpFindTeacher ≠ None →
       response = internal_error ∧ notifications (db s') = notifications (db s))
    ∧ (fault env OpFindTeacher = None →
       teachers (db s) !! userId decoded ≠ None →
       fault env OpCreateNotification ≠ None →
       response = internal_error ∧ notifications (db s') = notifications (db s)).
Proof.
  intros P Hsave.
  destruct (fault env OpFindTeacher) as [e|] eqn:Hlookup.
  { eexists _, _. split; [apply (POST_teacher_lookup_raises _ _ _ _ _ _ _ _ _ _ _ e P Hsave Hlookup)|].
    cbn. repeat split; try done. }
  destruct (teachers (db s) !! userId decoded) as [teacher|] eqn:Hteacher; cycle 1.
  { eexists _, _. split; [apply (POST_teacher_absent _ _ _ _ _ _ _ _ _ _ _ P Hsave Hlookup Hteacher)|].
    cbn. repeat split; try done. }
  destruct (fault env OpCreateNotification) as [e|] eqn:Hcreate.
  { eexists _, _.
    split; [apply (POST_create_raises _ _ _ _ _ _ _ _ _ _ _ teacher e P Hsave Hlookup Hteacher Hcreate)|].
    cbn. repeat split; try done. }
  eexists _, _.
  split; [apply (POST_notified _ _ _ _ _ _ _ _ _ _ _ teacher P Hsave Hlookup Hteacher Hcreate)|].
  cbn. repeat split; try done.
Qed.

Lemma teacher_absence_is_harmless_raising_is_not_witness :
  ∃ response s',
    POST (Sample.failing OpCreateNotification) Sample.good Sample.params Sample.start
    = (inr response, s')
    ∧ response = internal_error.
Proof.
  destruct (teacher_absence_is_harmless_raising_is_not
              (Sample.failing OpCreateNotification) Sample.good Sample.params Sample.start
              "tok-t1" {| userId := "t1"; role := "teacher" |}
              (Some (JNum 85)) (Some (JStr "Good work")) Sample.hw 1 Sample.sub2
              (sample_checks_pass_failing OpCreateNotification
                 ltac:(discriminate) ltac:(discriminate)) eq_refl)
    as (response & s' & Hrun & _ & _ & _ & Hraise).
  exists response, s'. split; [exact Hrun|].
  apply Hraise; [reflexivity|vm_compute; discriminate|cbn; discriminate].
Defined.



Lemma failure_response_inj c c' : failure_response c = failure_response c' → c = c'.
Proof. destruct c, c'; (reflexivity || discriminate). Qed.

Lemma fails_at_calls env request params st c made :
  fails_at env request params st c made →
  Forall (λ call, (call_rank call ≤ check_rank c)%nat) made
  ∧ forallb (λ call, negb (is_write call)) made = true.
Proof.
  intros F. destruct F; (split; [repeat constructor; cbn; lia|reflexivity]).
Qed.

(** The sample store with a request whose submission id is unknown, and
    with the token of a teacher who does not own the assignment. *)
Lemma sample_fails_submission :
  fails_at Sample.env Sample.good {| params_id := "a1"; params_submissionId := "s9" |}
    Sample.store CheckSubmission
    [CookiesGet "auth-token"; Verify "tok-t1"; RequestJson; ConnectToDatabase;
     AssignmentFindById "a1"].
Proof.
  apply (fails_submission Sample.env Sample.good {| params_id := "a1"; params_submissionId := "s9" |}
           Sample.store "tok-t1" {| userId := "t1"; role := "teacher" |}
           (Some (JNum 85)) (Some (JStr "Good work")) Sample.hw);
    try reflexivity.
  - repeat split; reflexivity.
  - split; [exists (Sample.body (JNum 85) (JStr "Good work")); split; reflexivity|].
    split; reflexivity.
  - split; reflexivity.
Defined.

Lemma sample_fails_owner :
  fails_at Sample.env
    (Sample.request "tok-t2" (inr (Sample.body (JNum 85) (JStr "Good work"))))
    Sample.params Sample.store CheckOwner
    [CookiesGet "auth-token"; Verify "tok-t2"; RequestJson; ConnectToDatabase;
     AssignmentFindById "a1"].
Proof.
  apply (fails_owner Sample.env
           (Sample.request "tok-t2" (inr (Sample.body (JNum 85) (JStr "Good work"))))
           Sample.params Sample.store "tok-t2" {| userId := "t2"; role := "teacher" |}
           (Some (JNum 85)) (Some (JStr "Good work")) Sample.hw);
    try reflexivity.
  - repeat split; reflexivity.
  - split; [exists (Sample.body (JNum 85) (JStr "Good work")); split; reflexivity|].
    split; reflexivity.
  - split; reflexivity.
Defined.

(** C2.  A request that fails one of the seven checks gets that check's
    failure response, and the run writes nothing: the stored assignments,
    teachers and notifications are as before, and neither a save nor a
    notification creation is among the calls made. *)
Theorem failed_check_writes_nothing env request params s c made :
  fails_at env request params (db s) c made →
  ∃ s',
    POST env request params s = (inr (failure_response c), s')
    ∧ success (failure_response c) = false
    ∧ db s' = db s
    ∧ calls s' = (calls s ++ made)%list
    ∧ forallb (λ call, negb (is_write call)) made = true.
Proof.
  intros F. exists (logged s made).
  split; [apply POST_fails_at; exact F|].
  split; [destruct c; reflexivity|].
  split; [reflexivity|]. split; [reflexivity|].
  apply (fails_at_calls _ _ _ _ _ _ F).
Qed.

Lemma failed_check_writes_nothing_witness :
  ∃ s',
    POST Sample.env Sample.good {| params_id := "a1"; params_submissionId := "s9" |} Sample.start
    = (inr (NextResponse_json (Failure "Submission not found") 404), s')
    ∧ db s' = Sample.store.
Proof.
  destruct (failed_check_writes_nothing Sample.env Sample.good
              {| params_id := "a1"; params_submissionId := "s9" |} Sample.start
              CheckSubmission _ sample_fails_submission)
    as (s' & Hrun & _ & Hdb & _).
  exists s'. split; [exact Hrun|exact Hdb].
Defined.

(** C4.  The first failing check, in the fixed order, decides the response:
    401 "Unauthorized", 401 "Invalid token", 403 "Access denied - only
    teachers can grade assignments", 400 "Grade and feedback are required",
    404 "Assignment not found", 403 "Not authorized to grade this
    assignment", 404 "Submission not found".  No other check can be the
    failing one for the same request, and the run makes no collaborator
    call that only a later check needs. *)
Theorem first_failing_check_decides_the_response env request params s c made :
  fails_at env request params (db s) c made →
  ∃ response,
    POST env request params s = (inr response, logged s made)
    ∧ (status response, body response)
      = match c with
        | CheckCookie => (401%Z, Failure "Unauthorized")
        | CheckToken => (401%Z, Failure "Invalid token")
        | CheckRole => (403%Z, Failure "Access denied - only teachers can grade assignments")
        | CheckBody => (400%Z, Failure "Grade and feedback are required")
        | CheckAssignment => (404%Z, Failure "Assignment not found")
        | CheckOwner => (403%Z, Failure "Not authorized to grade this assignment")
        | CheckSubmission => (404%Z, Failure "Submission not found")
        end
    ∧ (∀ c' made', fails_at env request params (db s) c' made' → c' = c)
    ∧ Forall (λ call, (call_rank call ≤ check_rank c)%nat) made.
Proof.
  intros F. exists (failure_response c).
  split; [apply POST_fails_at; exact F|].
  split; [destruct c; reflexivity|].
  split.
  - intros c' made' F'.
    pose proof (POST_fails_at _ _ _ _ _ _ F) as E.
    rewrite (POST_fails_at _ _ _ _ _ _ F') in E.
    apply failure_response_inj. congruence.
  - apply (fails_at_calls _ _ _ _ _ _ F).
Qed.

Lemma first_failing_check_decides_the_response_witness :
  POST Sample.env (Sample.request "tok-t2" (inr (Sample.body (JNum 85) (JStr "Good work"))))
    Sample.params Sample.start
  = (inr (NextResponse_json (Failure "Not authorized to grade this assignment") 403),
     logged Sample.start
       [CookiesGet "auth-token"; Verify "tok-t2"; RequestJson; ConnectToDatabase;
        AssignmentFindById "a1"]).
Proof.
  destruct (first_failing_check_decides_the_response Sample.env
              (Sample.request "tok-t2" (inr (Sample.body (JNum 85) (JStr "Good work"))))
              Sample.params Sample.start CheckOwner _ sample_fails_owner)
    as ([b st] & Hrun & Htable & _).
  cbn in Htable. injection Htable as -> ->. exact Hrun.
Defined.


(** ** Body validation *)

Lemma parsed_functional request grade feedback grade' feedback' :
  parsed request grade feedback → parsed request grade' feedback' →
  grade' = grade ∧ feedback' = feedback.
Proof. intros (b & Hb & Hd) (b' & Hb' & Hd'). split; congruence. Qed.

(** The 400 response is returned exactly when the parsed body has no grade
    or a falsy feedback. *)
Lemma rejected_iff env request params s token decoded grade feedback :
  is_teacher env request token decoded →
  parsed request grade feedback →
  (POST env request params s).1 = inr (failure_response CheckBody)
  ↔ is_undefined grade || negb (truthy feedback) = true.
Proof.
  intros R Pa. split.
  - intros Hrun. destruct (is_undefined grade || negb (truthy feedback)) eqn:Hvalid; [reflexivity|].
    exfalso. pose proof (POST_path env request params s) as Hpath.
    destruct (POST env request params s) as [out s']. cbn in Hrun. subst out.
    inversion Hpath as [c made F Hc| | | | | | | | |]; subst; try discriminate.
    apply (failure_response_inj c CheckBody) in Hc. subst c.
    inversion F as [| | |token' decoded' grade' feedback' R' Pa' Hinvalid| | |]; subst.
    destruct (parsed_functional _ _ _ _ _ Pa Pa') as [-> ->]. congruence.
  - intros Hinvalid.
    rewrite (POST_fails_at _ _ _ _ _ _
               (fails_body env request params (db s) token decoded grade feedback R Pa Hinvalid)).
    reflexivity.
Qed.


(** C5.  For a valid teacher token and a parsed body, the 400 response
    "Grade and feedback are required" is returned exactly when the grade is
    undefined or the feedback is empty (falsy; for a string: the empty
    string).  In particular grade 0 with a non-empty feedback text is not
    rejected, and the request succeeds when the remaining checks pass and
    the storage calls return. *)
Theorem only_absent_grade_or_empty_feedback_is_rejected
    env request params s token decoded grade feedback :
  is_teacher env request token decoded →
  parsed request grade feedback →
  ((POST env request params s).1
     = inr (NextResponse_json (Failure "Grade and feedback are required") 400)
   ↔ grade = None ∨ truthy feedback = false)
  ∧ (∀ text, feedback = Some (JStr text) → (truthy feedback = false ↔ text = ""))
  ∧ (feedback = None → truthy feedback = false)
  ∧ (∀ text a i submission,
       grade = Some (JNum 0) →
       feedback = Some (JStr text) →
       text ≠ "" →
       lookup_returns env →
       assignments (db s) !! params_id params = Some a →
       Assignment.teacherId a = userId decoded →
       submissions_id (Assignment.submissions a) (params_submissionId params) = Some (i, submission) →
       fault env OpSave = None →
       fault env OpFindTeacher = None →
       fault env OpCreateNotification = None →
       (POST env request params s).1
       = inr (NextResponse_json
                (Success "Submission graded successfully"
                   (graded (Some (JNum 0)) (Some (JStr text)) (now env) submission)) 200)).
Proof.
  intros R Pa. split; [|split; [|split]].
  - change (NextResponse_json (Failure "Grade and feedback are required") 400)
      with (failure_response CheckBody).
    rewrite (rejected_iff env request params s token decoded grade feedback R Pa).
    rewrite orb_true_iff, negb_true_iff. destruct grade; cbn; intuition congruence.
  - intros text ->. cbn. rewrite negb_false_iff. apply String.eqb_eq.
  - intros ->. reflexivity.
  - intros text a i submission -> -> Htext L Ha Howner Hsub Hsave Hlookup Hcreate.
    assert (P : checks_pass env request params (db s) token decoded
                  (Some (JNum 0)) (Some (JStr text)) a i submission).
    { assert (Hfeedback : truthy (Some (JStr text)) = true)
        by (cbn; apply negb_true_iff, String.eqb_neq; exact Htext).
      exact (conj R (conj (conj Pa (conj eq_refl Hfeedback))
                      (conj L (conj Ha (conj Howner Hsub))))). }
    destruct (teachers (db s) !! userId decoded) as [teacher|] eqn:Hteacher.
    + rewrite (POST_notified _ _ _ _ _ _ _ _ _ _ _ teacher P Hsave Hlookup Hteacher Hcreate).
      reflexivity.
    + rewrite (POST_teacher_absent _ _ _ _ _ _ _ _ _ _ _ P Hsave Hlookup Hteacher).
      reflexivity.
Qed.

Lemma only_absent_grade_or_empty_feedback_is_rejected_witness :
  (POST Sample.env (Sample.request "tok-t1" (inr (Sample.body (JNum 0) (JStr "Try again"))))
     Sample.params Sample.start).1
  = inr (NextResponse_json
           (Success "Submission graded successfully"
              (graded (Some (JNum 0)) (Some (JStr "Try again")) 1000 Sample.sub2)) 200).
Proof.
  refine (proj2 (proj2 (proj2
    (only_absent_grade_or_empty_feedback_is_rejected Sample.env
       (Sample.request "tok-t1" (inr (Sample.body (JNum 0) (JStr "Try again"))))
       Sample.params Sample.start "tok-t1" {| userId := "t1"; role := "teacher" |}
       (Some (JNum 0)) (Some (JStr "Try again")) _ _)))
    "Try again" Sample.hw 1%nat Sample.sub2 eq_refl eq_refl _ _ eq_refl eq_refl eq_refl
    eq_refl eq_refl eq_refl).
  - repeat split; reflexivity.
  - exists (Sample.body (JNum 0) (JStr "Try again")). split; reflexivity.
  - discriminate.
  - split; reflexivity.
Defined.

(** C9.  When the cookie, token and role checks pass and the body cannot be
    parsed as JSON, the response is the 500 of the catch-all, not the 400
    of body validation; nothing after the parse is called. *)
Theorem unparseable_body_is_an_internal_error env request params s token decoded e :
  is_teacher env request token decoded →
  json request = inl e →
  POST env request params s
  = (inr (NextResponse_json (Failure "Failed to grade submission") 500),
     logged s [CookiesGet "auth-token"; Verify token; RequestJson])
  ∧ NextResponse_json (Failure "Failed to grade submission") 500
    ≠ NextResponse_json (Failure "Grade and feedback are required") 400.
Proof.
  intros R Hjson. split; [|discriminate].
  apply (POST_json_rejects _ _ _ _ _ _ e R Hjson).
Qed.

Lemma unparseable_body_is_an_internal_error_witness :
  POST Sample.env
    (Sample.request "tok-t1" (inl (Thrown "SyntaxError" "Unexpected end of JSON input")))
    Sample.params Sample.start
  = (inr (NextResponse_json (Failure "Failed to grade submission") 500),
     logged Sample.start [CookiesGet "auth-token"; Verify "tok-t1"; RequestJson]).
Proof.
  refine (proj1 (unparseable_body_is_an_internal_error Sample.env
    (Sample.request "tok-t1" (inl (Thrown "SyntaxError" "Unexpected end of JSON input")))
    Sample.params Sample.start "tok-t1" {| userId := "t1"; role := "teacher" |}
    (Thrown "SyntaxError" "Unexpected end of JSON input") _ eq_refl)).
  repeat split; reflexivity.
Defined.





Example negative_fractional_and_huge_grades_are_stored :
  stored_grade (JNum (-5)) = Some (Some (JNum (-5)))
  ∧ stored_grade (JNum (171 # 2)) = Some (Some (JNum (171 # 2)))
  ∧ stored_grade (JNum 1000000000000) = Some (Some (JNum 1000000000000)).
Proof. repeat split; vm_compute; reflexivity. Qed.

(** ** Grading again *)


(** C6.  Grading is repeatable.  After a successful request, a second
    request for the same assignment and submission with the same token (the
    same body, or another valid one) is answered 200 again: there is no
    already-graded error, the stored grade, feedback and graded-at time are
    overwritten by those of the second run, and with a teacher record each
    run appends its own notification, two in all. *)
Theorem regrading_overwrites_and_notifies_again
    env request request' params s token decoded grade feedback grade' feedback'
    a i submission teacher later :
  checks_pass env request params (db s) token decoded grade feedback a i submission →
  fault env OpSave = None →
  fault env OpFindTeacher = None →
  fault env OpCreateNotification = None →
  teachers (db s) !! userId decoded = Some teacher →
  cookies request' = cookies request →
  valid_body request' grade' feedback' →
  ∃ s1 s2 a1 a2 first second n,
    POST env request params s
    = (inr (NextResponse_json (Success "Submission graded successfully" first) 200), s1)
    ∧ assignments (db s1) !! params_id params = Some a1
    ∧ submissions_id (Assignment.submissions a1) (params_submissionId params) = Some (i, first)
    ∧ Submission.grade first = grade
    ∧ Submission.feedback first = feedback
    ∧ Submission.status first = "graded"
    ∧ Submission.gradedAt first = Some (now env)
    ∧ Submission._id first = Submission._id submission
    ∧ Submission.studentId first = Submission.studentId submission
    ∧ POST (at_time env later) request' params s1
      = (inr (NextResponse_json (Success "Submission graded successfully" second) 200), s2)
    ∧ assignments (db s2) !! params_id params = Some a2
    ∧ submissions_id (Assignment.submissions a2) (params_submissionId params) = Some (i, second)
    ∧ Submission.grade second = grade'
    ∧ Submission.feedback second = feedback'
    ∧ Submission.status second = "graded"
    ∧ Submission.gradedAt second = Some later
    ∧ Submission._id second = Submission._id submission
    ∧ Submission.studentId second = Submission.studentId submission
    ∧ length (Assignment.submissions a2) = length (Assignment.submissions a)
    ∧ notifications (db s1) = (notifications (db s) ++ [n])%list
    ∧ notifications (db s2) = (notifications (db s) ++ [n; n])%list.
Proof.
  intros P Hsave Hlookup Hcreate Hteacher Hcookies V'.
  pose proof (POST_notified _ _ _ _ _ _ _ _ _ _ _ teacher P Hsave Hlookup Hteacher Hcreate) as Hrun1.
  set (s1 := {| db := notified (notification_from env params decoded grade feedback a i submission teacher)
                        (saved (graded_assignment env params grade feedback a i submission) (db s));
                calls := _ |}) in Hrun1.
  assert (Hfound : submissions_id (Assignment.submissions a) (params_submissionId params)
                   = Some (i, submission)) by (unpack; assumption).
  assert (Hfirst : submissions_id
                     (<[i := graded grade feedback (now env) submission]> (Assignment.submissions a))
                     (params_submissionId params)
                   = Some (i, graded grade feedback (now env) submission))
    by (apply (submissions_id_insert _ _ _ submission); [assumption|reflexivity]).
  assert (P' : checks_pass (at_time env later) request' params (db s1) token decoded grade' feedback'
                 (Assignment.fields (graded_assignment env params grade feedback a i submission))
                 i (graded grade feedback (now env) submission)).
  { unpack. repeat split; cbn; try assumption; try congruence.
    - eexists; split; eassumption.
    - apply lookup_insert_eq. }
  pose proof (POST_notified (at_time env later) request' params s1 _ _ _ _ _ _ _ teacher
                P' Hsave Hlookup Hteacher Hcreate) as Hrun2.
  eexists s1, _, _, _, (graded grade feedback (now env) submission),
    (graded grade' feedback' later (graded grade feedback (now env) submission)),
    (notification_from env params decoded grade feedback a i submission teacher).
  split; [exact Hrun1|].
  split; [cbn; apply lookup_insert_eq|].
  split; [exact Hfirst|].
  do 6 (split; [reflexivity|]).
  split; [exact Hrun2|].
  split; [cbn; apply lookup_insert_eq|].
  split. { cbn. apply (submissions_id_insert _ _ _ (graded grade feedback (now env) submission));
           [exact Hfirst|reflexivity]. }
  do 6 (split; [reflexivity|]).
  split. { cbn. rewrite !length_insert. reflexivity. }
  split; [reflexivity|].
  cbn. rewrite <- app_assoc. reflexivity.
Qed.

Lemma regrading_overwrites_and_notifies_again_witness :
  ∃ s1 s2 a2,
    POST Sample.env Sample.good Sample.params Sample.start
    = (inr (NextResponse_json
              (Success "Submission graded successfully"
                 {| Submission._id := "s2"; Submission.studentId := "stu2";
                    Submission.grade := Some (JNum 85);
                    Submission.feedback := Some (JStr "Good work");
                    Submission.status := "graded";
                    Submission.gradedAt := Some 1000%Z |}) 200), s1)
    ∧ POST (at_time Sample.env 2000)
        (Sample.request "tok-t1" (inr (Sample.body (JNum 90) (JStr "Better"))))
        Sample.params s1
      = (inr (NextResponse_json
                (Success "Submission graded successfully"
                   {| Submission._id := "s2"; Submission.studentId := "stu2";
                      Submission.grade := Some (JNum 90);
                      Submission.feedback := Some (JStr "Better");
                      Submission.status := "graded";
                      Submission.gradedAt := Some 2000%Z |}) 200), s2)
    ∧ assignments (db s2) !! "a1" = Some a2
    ∧ submissions_id (Assignment.submissions a2) "s2"
      = Some (1%nat,
              {| Submission._id := "s2"; Submission.studentId := "stu2";
                 Submission.grade := Some (JNum 90);
                 Submission.feedback := Some (JStr "Better");
                 Submission.status := "graded";
                 Submission.gradedAt := Some 2000%Z |})
    ∧ length (notifications (db s2)) = 2%nat.
Proof.
  destruct (regrading_overwrites_and_notifies_again
              Sample.env Sample.good
              (Sample.request "tok-t1" (inr (Sample.body (JNum 90) (JStr "Better"))))
              Sample.params Sample.start "tok-t1"
              {| userId := "t1"; role := "teacher" |}
              (Some (JNum 85)) (Some (JStr "Good work")) (Some (JNum 90)) (Some (JStr "Better"))
              Sample.hw 1%nat Sample.sub2 Sample.ada 2000%Z
              (sample_checks_pass Sample.env eq_refl eq_refl eq_refl)
              eq_refl eq_refl eq_refl eq_refl eq_refl
              (conj (ex_intro _ (Sample.body (JNum 90) (JStr "Better")) (conj eq_refl eq_refl))
                    (conj eq_refl eq_refl)))
    as (s1 & s2 & a1 & a2 & [id1 st1 g1 f1 u1 t1] & [id2 st2 g2 f2 u2 t2] & n
        & Hrun1 & _ & _ & Hg1 & Hf1 & Hu1 & Ht1 & Hid1 & Hst1
        & Hrun2 & Ha2 & Hfound2 & Hg2 & Hf2 & Hu2 & Ht2 & Hid2 & Hst2 & _ & _ & Hn).
  cbn in Hg1, Hf1, Hu1, Ht1, Hid1, Hst1, Hg2, Hf2, Hu2, Ht2, Hid2, Hst2. subst.
  exists s1, s2, a2.
  split; [exact Hrun1|]. split; [exact Hrun2|]. split; [exact Ha2|].
  split; [exact Hfound2|]. rewrite Hn. reflexivity.
Defined.

(** ** Exceptions and the order of the writes *)



(** Decide every call of an explicit list. *)
Ltac each_call :=
  repeat match goal with
         | H : In _ (_ ++ _) |- _ => cbn in H
         | H : In _ (_ :: _) |- _ => destruct H as [?|H]; [try discriminate; subst|]
         | H : In _ [] |- _ => destruct H
         end.

Lemma fails_at_returns env request params st c made call :
  fails_at env request params st c made →
  In call made →
  raises env request call = false.
Proof.
  intros F Hin. destruct F; unpack; each_call; cbn;
    repeat match goal with H : ?l = _ |- context [?l] => rewrite H end; reflexivity.
Qed.

(** A call that raised ends the run in the catch-all. *)
Lemma path_raised env request params s out made call :
  path env request params s out →
  calls out.2 = (calls s ++ made)%list →
  In call made →
  raises env request call = true →
  out.1 = inr internal_error.
Proof.
  intros Hpath Hcalls Hin Hraises.
  destruct Hpath; cbn in Hcalls; apply app_inv_head in Hcalls; subst made; try reflexivity.
  - rewrite (fails_at_returns _ _ _ _ _ _ _ H Hin) in Hraises. discriminate.
  - exfalso. unpack. unfold checked_calls in Hin. each_call; cbn in Hraises;
      repeat match goal with H : ?l = _, H' : context [?l] |- _ => rewrite H in H' end;
      discriminate.
  - exfalso. unpack. unfold checked_calls in Hin. each_call; cbn in Hraises;
      repeat match goal with H : ?l = _, H' : context [?l] |- _ => rewrite H in H' end;
      discriminate.
Qed.

Lemma fails_at_no_write env request params st c made call :
  fails_at env request params st c made → In call made → is_write call = false.
Proof.
  intros F Hin. destruct (fails_at_calls _ _ _ _ _ _ F) as [_ Hreads].
  rewrite forallb_forall in Hreads. apply negb_true_iff, Hreads, Hin.
Qed.


Lemma path_is_fixed env request params s out :
  path env request params s out → ∃ response, out.1 = inr response ∧ is_fixed response.
Proof.
  intros Hpath. destruct Hpath; cbn; eexists; (split; [reflexivity|]);
    try (unfold is_fixed; cbn; tauto).
  destruct c; unfold is_fixed; cbn; tauto.
Qed.

(** C7.  The handler always ends in a response.  Whatever is thrown inside
    the outer [try] - in particular by a storage call or by the body parser -
    becomes the one response 500 "Failed to grade submission"; every
    response is one of the fixed failures or the success payload, so nothing
    of the thrown value reaches the caller. *)
Theorem no_exception_escapes env request params s :
  ∃ response s' made,
    POST env request params s = (inr response, s')
    ∧ calls s' = (calls s ++ made)%list
    ∧ match body response with
      | Failure error =>
          In (status response, error)
            [(401%Z, "Unauthorized"); (401%Z, "Invalid token");
             (403%Z, "Access denied - only teachers can grade assignments");
             (400%Z, "Grade and feedback are required");
             (404%Z, "Assignment not found");
             (403%Z, "Not authorized to grade this assignment");
             (404%Z, "Submission not found");
             (500%Z, "Failed to grade submission")]
      | Success message _ => status response = 200%Z ∧ message = "Submission graded successfully"
      end
    ∧ (∀ thrown s1,
         POST_try env request params s = (inl thrown, s1) →
         response = NextResponse_json (Failure "Failed to grade submission") 500 ∧ s' = s1)
    ∧ (∀ call,
         In call made → raises env request call = true →
         response = NextResponse_json (Failure "Failed to grade submission") 500).
Proof.
  pose proof (POST_path env request params s) as Hpath.
  destruct (path_is_fixed _ _ _ _ _ Hpath) as (response & Hout & Hfixed).
  assert (Hcalls : ∃ made, calls (POST env request params s).2 = (calls s ++ made)%list)
    by (destruct Hpath; cbn; eexists; reflexivity).
  destruct Hcalls as (made & Hcalls).
  destruct (POST env request params s) as [out s'] eqn:Hrun. cbn in Hout, Hcalls. subst out.
  exists response, s', made.
  split; [reflexivity|]. split; [exact Hcalls|]. split; [exact Hfixed|]. split.
  - intros thrown s1 Htry. unfold POST, try_catch in Hrun. rewrite Htry in Hrun.
    cbn in Hrun. injection Hrun as <- <-. split; reflexivity.
  - intros call Hin Hraises.
    pose proof (path_raised _ _ _ _ _ made call Hpath Hcalls Hin Hraises) as E.
    cbn in E. injection E as ->. reflexivity.
Qed.

(** A save or a lookup that raises, on the sample store: the thrown value
    stays inside. *)
Example storage_failure_is_the_generic_500 :
  (POST (Sample.failing OpSave) Sample.good Sample.params Sample.start).1
  = inr (NextResponse_json (Failure "Failed to grade submission") 500)
  ∧ (POST (Sample.failing OpFindAssignment) Sample.good Sample.params Sample.start).1
    = inr (NextResponse_json (Failure "Failed to grade submission") 500).
Proof. repeat split; vm_compute; reflexivity. Qed.

(** A body that is the JSON value [null] has no fields to validate:
    destructuring it throws, and the catch-all answers. *)
Example null_body_is_an_internal_error :
  (POST Sample.env (Sample.request "tok-t1" (inr JNull)) Sample.params Sample.start).1
  = inr (NextResponse_json (Failure "Failed to grade submission") 500).
Proof. vm_compute. reflexivity. Qed.

(** What a run that calls [Notification.create] has done before. *)
Lemma path_notification_call env request params s out made n :
  path env request params s out →
  calls out.2 = (calls s ++ made)%list →
  In (NotificationCreate n) made →
  fault env OpSave = None
  ∧ fault env OpFindTeacher = None
  ∧ ∃ before teacherId,
      made = (before ++ [AssignmentSave (params_id params); TeacherFindById teacherId;
                         NotificationCreate n])%list
      ∧ Forall (λ call, is_write call = false) before.
Proof.
  intros Hpath Hcalls Hin.
  destruct Hpath; cbn in Hcalls; apply app_inv_head in Hcalls; subst made;
    try (exfalso; unfold checked_calls in Hin; each_call; fail).
  - pose proof (fails_at_no_write _ _ _ _ _ _ _ H Hin). discriminate.
  - split; [assumption|]. split; [assumption|].
    exists (checked_calls params token), (userId decoded).
    unfold checked_calls in *. each_call.
    match goal with E : NotificationCreate _ = NotificationCreate n |- _ => injection E as <- end.
    split; [reflexivity|]. repeat constructor.
  - split; [assumption|]. split; [assumption|].
    exists (checked_calls params token), (userId decoded).
    unfold checked_calls in *. each_call.
    match goal with E : NotificationCreate _ = NotificationCreate n |- _ => injection E as <- end.
    split; [reflexivity|]. repeat constructor.
Qed.

(** The stored notifications change only in a run that has saved the graded aggregate. *)
Lemma path_notifications env request params s out :
  path env request params s out →
  notifications (db out.2) = notifications (db s)
  ∨ (fault env OpSave = None
     ∧ fault env OpFindTeacher = None
     ∧ ∃ n a' i submission',
         notifications (db out.2) = (notifications (db s) ++ [n])%list
         ∧ assignments (db out.2) !! params_id params = Some a'
         ∧ Assignment.submissions a' !! i = Some submission'
         ∧ Submission._id submission' = params_submissionId params
         ∧ Submission.status submission' = "graded").
Proof.
  intros Hpath. destruct Hpath; try (left; reflexivity).
  right. split; [assumption|]. split; [assumption|].
  eexists _, _, i, (graded grade feedback (now env) submission). cbn.
  split; [reflexivity|]. rewrite lookup_insert_eq. split; [reflexivity|]. cbn.
  assert (Hfound : submissions_id (Assignment.submissions a) (params_submissionId params)
                   = Some (i, submission)) by (unpack; assumption).
  split; [|split; [|reflexivity]].
  - apply list_lookup_insert_eq. apply lookup_lt_Some with submission.
    apply (submissions_id_lookup _ _ _ _ Hfound).
  - apply (submissions_id_matches _ _ _ _ Hfound).
Qed.

(** C8.  The notification is written only after the save has completed.
    In every run, a call of [Notification.create] comes after the returned
    call of [assignment.save()], and the stored notifications change only
    when the stored aggregate holds the graded submission.  If the save
    raises, no notification is created; if the teacher lookup between the
    two writes raises, the grade is stored and no notification is. *)
Theorem notification_is_written_only_after_the_save env request params s :
  ∃ out s' made,
    POST env request params s = (out, s')
    ∧ calls s' = (calls s ++ made)%list
    ∧ (∀ n, In (NotificationCreate n) made →
         fault env OpSave = None
         ∧ fault env OpFindTeacher = None
         ∧ ∃ before teacherId,
             made = (before ++ [AssignmentSave (params_id params); TeacherFindById teacherId;
                                NotificationCreate n])%list
             ∧ Forall (λ call, is_write call = false) before)
    ∧ (notifications (db s') ≠ notifications (db s) →
       fault env OpSave = None
       ∧ ∃ a' i submission',
           assignments (db s') !! params_id params = Some a'
           ∧ Assignment.submissions a' !! i = Some submission'
           ∧ Submission._id submission' = params_submissionId params
           ∧ Submission.status submission' = "graded")
    ∧ (fault env OpSave ≠ None →
       notifications (db s') = notifications (db s)
       ∧ assignments (db s') = assignments (db s)
       ∧ ∀ n, ¬ In (NotificationCreate n) made)
    ∧ (∀ token decoded grade feedback a i submission,
         checks_pass env request params (db s) token decoded grade feedback a i submission →
         fault env OpSave = None →
         fault env OpFindTeacher ≠ None →
         out = inr (NextResponse_json (Failure "Failed to grade submission") 500)
         ∧ assignments (db s') !! params_id params
           = Some {| Assignment.teacherId := Assignment.teacherId a;
                     Assignment.title := Assignment.title a;
                     Assignment.submissions :=
                       <[i := graded grade feedback (now env) submission]> (Assignment.submissions a) |}
         ∧ notifications (db s') = notifications (db s)
         ∧ ∀ n, ¬ In (NotificationCreate n) made).
Proof.
  pose proof (POST_path env request params s) as Hpath.
  assert (Hcalls : ∃ made, calls (POST env request params s).2 = (calls s ++ made)%list)
    by (destruct Hpath; cbn; eexists; reflexivity).
  destruct Hcalls as (made & Hcalls).
  pose proof (path_notifications _ _ _ _ _ Hpath) as Hnotes.
  pose proof (λ n, path_notification_call _ _ _ _ _ made n Hpath Hcalls) as Horder.
  destruct (POST env request params s) as [out s'] eqn:Hrun. cbn in Hcalls, Hnotes, Horder.
  exists out, s', made.
  split; [reflexivity|]. split; [exact Hcalls|]. split; [exact Horder|]. split; [|split].
  - intros Hchanged. destruct Hnotes as [Hsame|(Hsave & _ & n & a' & i & sub' & _ & Hrest)];
      [contradiction|].
    split; [exact Hsave|]. exists a', i, sub'. exact Hrest.
  - intros Hsave. split; [|split].
    + destruct Hnotes as [Hsame|(Hsave' & _)]; [exact Hsame|contradiction].
    + clear Hnotes Horder Hcalls.
      inversion Hpath; subst; try reflexivity; contradiction.
    + intros n Hin. destruct (Horder n Hin) as (Hsave' & _). contradiction.
  - intros token decoded grade feedback a i submission P Hsave Hlookup.
    destruct (fault env OpFindTeacher) as [e|] eqn:Hfault; [|contradiction].
    rewrite (POST_teacher_lookup_raises _ _ _ _ _ _ _ _ _ _ _ e P Hsave Hfault) in Hrun.
    injection Hrun as <- <-. cbn.
    split; [reflexivity|]. split; [apply lookup_insert_eq|]. split; [reflexivity|].
    intros n Hin. destruct (Horder n Hin) as (_ & Hlookup' & _). congruence.
Qed.


(** ** Further properties of the handler *)

(** Consider an arbitrary run through its path. *)
Ltac over_paths env request params s :=
  generalize (POST_path env request params s);
  generalize (POST env request params s).



(** Projections of the submissions that the grading does not assign to. *)
Lemma fmap_insert_same {B : Type} (f : Submission.t → B) (subs : list Submission.t) i old new :
  subs !! i = Some old → f new = f old → f <$> <[i := new]> subs = f <$> subs.
Proof.
  intros Hi Hf. rewrite list_fmap_insert. apply list_insert_id.
  rewrite list_lookup_fmap, Hi. cbn. congruence.
Qed.

(** X2.  A run never touches the teacher records, nor any assignment other
    than the one named in the path. *)
Theorem other_documents_are_untouched env request params s :
  teachers (db (POST env request params s).2) = teachers (db s)
  ∧ ∀ id, id ≠ params_id params →
      assignments (db (POST env request params s).2) !! id = assignments (db s) !! id.
Proof.
  over_paths env request params s. intros out Hpath.
  destruct Hpath; cbn; (split; [reflexivity|]); intros id Hne; try reflexivity;
    rewrite lookup_insert_ne by congruence; reflexivity.
Qed.

(** X3.  No run creates or deletes an assignment, and grading keeps what
    identifies an assignment and its submissions: the owner, the title, the
    number of submissions, and each submission's id and student. *)
Theorem grading_keeps_identities env request params s id :
  match assignments (db s) !! id, assignments (db (POST env request params s).2) !! id with
  | Some a, Some a' =>
      Assignment.teacherId a' = Assignment.teacherId a
      ∧ Assignment.title a' = Assignment.title a
      ∧ length (Assignment.submissions a') = length (Assignment.submissions a)
      ∧ Submission._id <$> Assignment.submissions a' = Submission._id <$> Assignment.submissions a
      ∧ Submission.studentId <$> Assignment.submissions a'
        = Submission.studentId <$> Assignment.submissions a
  | None, None => True
  | _, _ => False
  end.
Proof.
  over_paths env request params s. intros out Hpath.
  assert (Hsame : ∀ m : gmap string Assignment.t,
            match m !! id, m !! id with
            | Some a, Some a' =>
                Assignment.teacherId a' = Assignment.teacherId a
                ∧ Assignment.title a' = Assignment.title a
                ∧ length (Assignment.submissions a') = length (Assignment.submissions a)
                ∧ Submission._id <$> Assignment.submissions a'
                  = Submission._id <$> Assignment.submissions a
                ∧ Submission.studentId <$> Assignment.submissions a'
                  = Submission.studentId <$> Assignment.submissions a
            | None, None => True
            | _, _ => False
            end).
  { intros m. destruct (m !! id); [repeat split|exact I]. }
  destruct Hpath; cbn; try apply Hsame.
  all: match goal with
       | P : checks_pass _ _ _ _ _ _ _ _ ?a ?i ?submission |- _ =>
           assert (Ha : assignments (db s) !! params_id params = Some a) by (unpack; assumption);
           assert (Hi : Assignment.submissions a !! i = Some submission)
             by (unpack; eapply submissions_id_lookup; eassumption)
       end.
  all: destruct (decide (id = params_id params)) as [->|Hne];
    [ rewrite Ha, lookup_insert_eq; cbn;
      split; [reflexivity|]; split; [reflexivity|]; split; [apply length_insert|];
      split; apply (fmap_insert_same _ _ _ _ _ Hi); reflexivity
    | rewrite lookup_insert_ne by congruence; apply Hsame ].
Qed.

(** X4.  Within the graded assignment, only the found submission changes:
    every position of the stored array holds what it held before, except
    the position of the first submission with the requested id, which holds
    that submission graded at the current time. *)
Theorem only_the_found_submission_changes env request params s a a' j :
  assignments (db s) !! params_id params = Some a →
  assignments (db (POST env request params s).2) !! params_id params = Some a' →
  Assignment.submissions a' !! j = Assignment.submissions a !! j
  ∨ ∃ old grade feedback,
      submissions_id (Assignment.submissions a) (params_submissionId params) = Some (j, old)
      ∧ Assignment.submissions a' !! j = Some (graded grade feedback (now env) old).
Proof.
  over_paths env request params s. intros out Hpath Ha.
  destruct Hpath; cbn; try (intros Ha'; left; congruence).
  all: match goal with
       | P : checks_pass _ _ _ _ _ _ _ _ ?a0 ?i ?submission |- _ =>
           assert (Ha0 : assignments (db s) !! params_id params = Some a0)
             by (unpack; assumption);
           assert (Hfound : submissions_id (Assignment.submissions a0)
                              (params_submissionId params) = Some (i, submission))
             by (unpack; assumption)
       end.
  all: rewrite lookup_insert_eq; intros [= <-]; cbn;
    assert (a0 = a) by congruence; subst a0;
    destruct (decide (j = i)) as [->|Hne];
    [ right; eexists submission, grade, feedback; split; [exact Hfound|];
      apply list_lookup_insert_eq, lookup_lt_Some with submission,
        (submissions_id_lookup _ _ _ _ Hfound)
    | left; apply list_lookup_insert_ne; congruence ].
Qed.

Lemma only_the_found_submission_changes_witness :
  Assignment.submissions
    {| Assignment.teacherId := "t1"; Assignment.title := "Essay";
       Assignment.submissions :=
         [Sample.sub1; graded (Some (JNum 85)) (Some (JStr "Good work")) 1000 Sample.sub2] |}
    !! 0%nat
  = Assignment.submissions Sample.hw !! 0%nat.
Proof.
  destruct (only_the_found_submission_changes Sample.env Sample.good Sample.params Sample.start
              Sample.hw
              {| Assignment.teacherId := "t1"; Assignment.title := "Essay";
                 Assignment.submissions :=
                   [Sample.sub1;
                    graded (Some (JNum 85)) (Some (JStr "Good work")) 1000 Sample.sub2] |}
              0%nat eq_refl eq_refl) as [Hsame|(old & g & f & Hfound & _)].
  - exact Hsame.
  - vm_compute in Hfound. discriminate Hfound.
Defined.

(** X5.  Only the owning teacher changes anything.  Either a run leaves the
    store as it was, or the request carried a token that verifies to a
    teacher whose id is the [teacherId] of the assignment named in the path. *)
Theorem only_the_owner_changes_the_store env request params s :
  db (POST env request params s).2 = db s
  ∨ ∃ token decoded a,
      cookies request !! "auth-token" = Some token
      ∧ verify env token = inr decoded
      ∧ role decoded = "teacher"
      ∧ assignments (db s) !! params_id params = Some a
      ∧ Assignment.teacherId a = userId decoded.
Proof.
  over_paths env request params s. intros out Hpath.
  destruct Hpath; try (left; reflexivity).
  all: right; exists token, decoded, a; unpack; repeat split; assumption.
Qed.

(** X6.  A success response is sent only for a stored grade.  When the
    response has [success: true], the cookie's token verifies to a teacher
    who owns the assignment found under the path's id, the body carried the
    grade and feedback, and the submission in the response - that grade and
    feedback, graded at the current time - is the one stored under the
    requested id in the saved assignment. *)
Theorem success_means_stored env request params s response :
  (POST env request params s).1 = inr response →
  success response = true →
  ∃ token decoded grade feedback a i old a' submission,
    cookies request !! "auth-token" = Some token
    ∧ verify env token = inr decoded
    ∧ role decoded = "teacher"
    ∧ parsed request grade feedback
    ∧ assignments (db s) !! params_id params = Some a
    ∧ Assignment.teacherId a = userId decoded
    ∧ submissions_id (Assignment.submissions a) (params_submissionId params) = Some (i, old)
    ∧ response = NextResponse_json (Success "Submission graded successfully" submission) 200
    ∧ assignments (db (POST env request params s).2) !! params_id params = Some a'
    ∧ Assignment.teacherId a' = Assignment.teacherId a
    ∧ submissions_id (Assignment.submissions a') (params_submissionId params) = Some (i, submission)
    ∧ Submission._id submission = Submission._id old
    ∧ Submission.studentId submission = Submission.studentId old
    ∧ Submission.grade submission = grade
    ∧ Submission.feedback submission = feedback
    ∧ Submission.status submission = "graded"
    ∧ Submission.gradedAt submission = Some (now env).
Proof.
  over_paths env request params s. intros out Hpath.
  destruct Hpath; cbn; intros [= <-] Hsuccess; try discriminate Hsuccess.
  - destruct c; discriminate Hsuccess.
  - exists token, decoded, grade, feedback, a, i, submission,
      (Assignment.fields (graded_assignment env params grade feedback a i submission)),
      (graded grade feedback (now env) submission).
    rewrite lookup_insert_eq. unpack.
    do 3 (split; [assumption|]). split; [eexists; split; eassumption|].
    do 3 (split; [assumption|]). do 3 (split; [reflexivity|]).
    split; [|repeat split].
    cbn. apply (submissions_id_insert _ _ _ submission); [assumption|reflexivity].
  - exists token, decoded, grade, feedback, a, i, submission,
      (Assignment.fields (graded_assignment env params grade feedback a i submission)),
      (graded grade feedback (now env) submission).
    rewrite lookup_insert_eq. unpack.
    do 3 (split; [assumption|]). split; [eexists; split; eassumption|].
    do 3 (split; [assumption|]). do 3 (split; [reflexivity|]).
    split; [|repeat split].
    cbn. apply (submissions_id_insert _ _ _ submission); [assumption|reflexivity].
Qed.

Lemma success_means_stored_witness :
  ∃ token decoded a a' i,
    cookies Sample.good !! "auth-token" = Some token
    ∧ verify Sample.env token = inr decoded
    ∧ assignments Sample.store !! "a1" = Some a
    ∧ Assignment.teacherId a = userId decoded
    ∧ assignments (db (POST Sample.env Sample.good Sample.params Sample.start).2) !! "a1" = Some a'
    ∧ submissions_id (Assignment.submissions a') "s2"
      = Some (i, {| Submission._id := "s2"; Submission.studentId := "stu2";
                    Submission.grade := Some (JNum 85);
                    Submission.feedback := Some (JStr "Good work");
                    Submission.status := "graded";
                    Submission.gradedAt := Some 1000%Z |}).
Proof.
  destruct (success_means_stored Sample.env Sample.good Sample.params Sample.start
              (NextResponse_json
                 (Success "Submission graded successfully"
                    {| Submission._id := "s2"; Submission.studentId := "stu2";
                       Submission.grade := Some (JNum 85);
                       Submission.feedback := Some (JStr "Good work");
                       Submission.status := "graded";
                       Submission.gradedAt := Some 1000%Z |}) 200)
              eq_refl eq_refl)
    as (token & decoded & grade & feedback & a & i & old & a' & submission
        & Hcookie & Hverify & _ & _ & Ha & Howner & _ & Hresponse & Hstored & _ & Hfound & _).
  injection Hresponse as <-. exists token, decoded, a, a', i.
  repeat split; assumption.
Defined.

(** X7.  The response 401 "Unauthorized" is returned exactly when the
    [auth-token] cookie is absent or holds the empty string. *)
Theorem unauthorized_iff_no_token env request params s :
  (POST env request params s).1 = inr (NextResponse_json (Failure "Unauthorized") 401)
  ↔ cookies request !! "auth-token" = None ∨ cookies request !! "auth-token" = Some "".
Proof.
  split.
  - over_paths env request params s. intros out Hpath.
    destruct Hpath; cbn; intros [= Hresponse]; try discriminate Hresponse.
    apply (failure_response_inj c CheckCookie) in Hresponse. subst c.
    inversion H as [Hfalsy| | | | | |]; subst.
    destruct (cookies request !! "auth-token") as [token|]; [right|left; reflexivity].
    cbn in Hfalsy. apply negb_false_iff, String.eqb_eq in Hfalsy. congruence.
  - intros Hcookie.
    assert (F : fails_at env request params (db s) CheckCookie [CookiesGet "auth-token"])
      by (constructor; destruct Hcookie as [-> | ->]; reflexivity).
    rewrite (POST_fails_at _ _ _ _ _ _ F). reflexivity.
Qed.

(** X8.  A body that parses to a JSON value other than an object has no
    fields to validate.  For [null] the destructuring throws and the
    response is the 500 of the catch-all; for a boolean, a number, a string
    or an array both fields are undefined and the response is 400.  In
    neither case is the database contacted. *)
Theorem non_object_bodies env request params s token decoded body :
  is_teacher env request token decoded →
  json request = inr body →
  match body with
  | JObj _ => True
  | JNull =>
      POST env request params s
      = (inr (NextResponse_json (Failure "Failed to grade submission") 500),
         logged s [CookiesGet "auth-token"; Verify token; RequestJson])
  | _ =>
      POST env request params s
      = (inr (NextResponse_json (Failure "Grade and feedback are required") 400),
         logged s [CookiesGet "auth-token"; Verify token; RequestJson])
  end.
Proof.
  intros R Hjson.
  assert (Hinvalid : ∀ grade feedback,
            destructure body = inr (grade, feedback) →
            grade = None →
            POST env request params s
            = (inr (NextResponse_json (Failure "Grade and feedback are required") 400),
               logged s [CookiesGet "auth-token"; Verify token; RequestJson])).
  { intros grade feedback Hdes ->.
    apply (POST_fails_at _ _ _ _ CheckBody).
    apply (fails_body env request params (db s) token decoded None feedback R);
      [exists body; split; assumption|reflexivity]. }
  destruct body; try exact I; try (apply (Hinvalid None None); reflexivity).
  apply (POST_destructure_raises _ _ _ _ _ _ JNull
           (Thrown "TypeError" "Cannot destructure property 'grade' of 'body' as it is null.")
           R Hjson).
  reflexivity.
Qed.

Lemma non_object_bodies_witness :
  POST Sample.env (Sample.request "tok-t1" (inr (JArr [JNum 85; JStr "Good work"])))
    Sample.params Sample.start
  = (inr (NextResponse_json (Failure "Grade and feedback are required") 400),
     logged Sample.start [CookiesGet "auth-token"; Verify "tok-t1"; RequestJson]).
Proof.
  refine (non_object_bodies Sample.env
            (Sample.request "tok-t1" (inr (JArr [JNum 85; JStr "Good work"])))
            Sample.params Sample.start "tok-t1" {| userId := "t1"; role := "teacher" |}
            (JArr [JNum 85; JStr "Good work"]) _ eq_refl).
  repeat split; reflexivity.
Defined.

(** X9.  The feedback is tested for truthiness only.  With a defined
    grade, the request is rejected with 400 exactly when the feedback is
    [null], [false], zero or the empty string; any other feedback value -
    [true], a non-zero number, a non-empty string, any array or object -
    passes the handler's validation. *)
Theorem feedback_is_tested_for_truthiness_only
    env request params s token decoded (grade value : jsval) :
  is_teacher env request token decoded →
  parsed request (Some grade) (Some value) →
  (POST env request params s).1
    = inr (NextResponse_json (Failure "Grade and feedback are required") 400)
  ↔ value = JNull ∨ value = JBool false ∨ (∃ q, value = JNum q ∧ (q == 0)%Q) ∨ value = JStr "".
Proof.
  intros R Pa.
  change (NextResponse_json (Failure "Grade and feedback are required") 400)
    with (failure_response CheckBody).
  rewrite (rejected_iff env request params s token decoded (Some grade) (Some value) R Pa).
  cbn. rewrite negb_true_iff. split.
  - destruct value as [|b|q|text|items|members]; cbn; try discriminate.
    + intros _. left. reflexivity.
    + intros ->. right. left. reflexivity.
    + rewrite negb_false_iff. intros Hq%Qeq_bool_iff. right. right. left. exists q. split; done.
    + rewrite negb_false_iff. intros ->%String.eqb_eq. right. right. right. reflexivity.
  - intros Hcases. destruct Hcases as [Hv|Hcases]; [subst; reflexivity|].
    destruct Hcases as [Hv|Hcases]; [subst; reflexivity|].
    destruct Hcases as [Hv|Hv]; [|subst; reflexivity].
    destruct Hv as (q & Hv & Hq). subst. cbn.
    rewrite negb_false_iff. apply Qeq_bool_iff. exact Hq.
Qed.

Lemma feedback_is_tested_for_truthiness_only_witness :
  (POST Sample.env (Sample.request "tok-t1" (inr (Sample.body (JNum 85) (JBool false))))
     Sample.params Sample.start).1
  = inr (NextResponse_json (Failure "Grade and feedback are required") 400).
Proof.
  refine (proj2 (feedback_is_tested_for_truthiness_only Sample.env
    (Sample.request "tok-t1" (inr (Sample.body (JNum 85) (JBool false))))
    Sample.params Sample.start "tok-t1" {| userId := "t1"; role := "teacher" |}
    (JNum 85) (JBool false) _ _) (or_intror (or_introl eq_refl))).
  - repeat split; reflexivity.
  - exists (Sample.body (JNum 85) (JBool false)). split; reflexivity.
Defined.

(** X10.  The database is contacted only for a validated request: in every
    run, either no storage call is made, or the request carried a teacher's
    token and a body with a defined grade and a truthy feedback. *)
Theorem database_is_reached_only_after_validation env request params s :
  ∃ made,
    calls (POST env request params s).2 = (calls s ++ made)%list
    ∧ (Forall (λ call, (call_rank call ≤ 4)%nat) made
       ∨ ∃ token decoded grade feedback,
           is_teacher env request token decoded ∧ valid_body request grade feedback).
Proof.
  over_paths env request params s. intros out Hpath.
  destruct Hpath; cbn; eexists; (split; [reflexivity|]);
    try (left; repeat constructor; fail);
    try (right; exists token, decoded, grade, feedback; unpack; repeat split; eauto; fail).
  destruct H; try (left; repeat constructor; fail);
    right; exists token, decoded, grade, feedback; unpack; repeat split; eauto.
Qed.

(** X11.  Notifications are append-only: a run leaves the stored
    notifications as they were, or appends exactly one, an unread
    [assignment_graded] notification that refers to the assignment named in
    the path. *)
Theorem notifications_are_append_only env request params s :
  notifications (db (POST env request params s).2) = notifications (db s)
  ∨ ∃ n,
      notifications (db (POST env request params s).2) = (notifications (db s) ++ [n])%list
      ∧ Notification.type n = "assignment_graded"
      ∧ Notification.recipientModel n = "Student"
      ∧ Notification.senderModel n = "Teacher"
      ∧ Notification.relatedDocId n = params_id params
      ∧ Notification.read n = false.
Proof.
  over_paths env request params s. intros out Hpath.
  destruct Hpath; try (left; reflexivity).
  right. eexists. cbn. repeat split.
Qed.

(** X1.  The notification of a successful grading.  When the checks pass,
    the storage calls return and the teacher record exists, the run appends
    one notification: to the student of the graded submission, from the
    teacher of the token, unread, referring to the assignment, with the
    message [<first name> <last name> has graded your assignment "<title>"]. *)
Theorem the_student_is_notified
    env request params s token decoded grade feedback a i submission teacher :
  checks_pass env request params (db s) token decoded grade feedback a i submission →
  fault env OpSave = None →
  fault env OpFindTeacher = None →
  fault env OpCreateNotification = None →
  teachers (db s) !! userId decoded = Some teacher →
  notifications (db (POST env request params s).2)
  = (notifications (db s)
     ++ [ {| Notification.recipientId := Submission.studentId submission;
             Notification.recipientModel := "Student";
             Notification.senderId := Assignment.teacherId a;
             Notification.senderModel := "Teacher";
             Notification.type := "assignment_graded";
             Notification.message :=
               (Teacher.firstName teacher ++ " " ++ Teacher.lastName teacher)
                 ++ " has graded your assignment " ++ dquote ++ Assignment.title a ++ dquote;
             Notification.relatedDocId := params_id params;
             Notification.read := false |} ])%list.
Proof.
  intros P Hsave Hlookup Hcreate Hteacher.
  rewrite (POST_notified _ _ _ _ _ _ _ _ _ _ _ teacher P Hsave Hlookup Hteacher Hcreate).
  cbn. unfold notification_from, graded_notification. cbn.
  assert (Howner : Assignment.teacherId a = userId decoded) by (unpack; assumption).
  rewrite Howner. reflexivity.
Qed.

Lemma the_student_is_notified_witness :
  Notification.message
  <$> notifications (db (POST Sample.env Sample.good Sample.params Sample.start).2)
  = [ "Ada Byron has graded your assignment " ++ dquote ++ "Essay" ++ dquote ].
Proof.
  rewrite (the_student_is_notified Sample.env Sample.good Sample.params Sample.start "tok-t1"
             {| userId := "t1"; role := "teacher" |}
             (Some (JNum 85)) (Some (JStr "Good work")) Sample.hw 1%nat Sample.sub2 Sample.ada
             (sample_checks_pass Sample.env eq_refl eq_refl eq_refl)
             eq_refl eq_refl eq_refl eq_refl).
  reflexivity.
Defined.



(** X13.  A failure response tells which check failed: the response of a
    check is returned only when every earlier check passed and that check
    failed.  (So 404 "Submission not found" is only ever sent to the owner
    of an existing assignment.) *)
Theorem failure_response_reveals_the_failing_check env request params s c :
  (POST env request params s).1 = inr (failure_response c) →
  ∃ made,
    fails_at env request params (db s) c made
    ∧ (POST env request params s).2 = logged s made.
Proof.
  over_paths env request params s. intros out Hpath.
  destruct Hpath; cbn; intros Hresponse; apply (inj inr) in Hresponse;
    try (destruct c; discriminate Hresponse).
  apply failure_response_inj in Hresponse. subst c0.
  exists made. split; [assumption|reflexivity].
Qed.

Lemma failure_response_reveals_the_failing_check_witness :
  ∃ made,
    fails_at Sample.env Sample.good {| params_id := "a1"; params_submissionId := "s9" |}
      Sample.store CheckSubmission made.
Proof.
  destruct (failure_response_reveals_the_failing_check Sample.env Sample.good
              {| params_id := "a1"; params_submissionId := "s9" |} Sample.start
              CheckSubmission eq_refl) as (made & F & _).
  exists made. exact F.
Defined.
